(** * NFC key claim bot: the code store, the claim engine and their properties

    A shallow embedding of [src/bot.py].  The three SQLite tables are finite
    maps and a list, every [async def] that touches the database is a
    computation in a small state-and-exception monad over the [World]
    (database, clock readings taken so far, random symbols drawn so far). *)

From Stdlib Require Import ZArith String Ascii List Lia.
From stdpp Require Import gmap strings list fin_maps fin_sets.

Local Open Scope string_scope.
Local Open Scope list_scope.
Local Open Scope Z_scope.

(** ** Tables (the schema of [ensure_db]) *)

(** [users]: keyed by [user_id]. *)
Record UserRow := mkUser {
  username : option string;
  first_seen : string
}.

(** [nfc_keys]: keyed by [code] (TEXT PRIMARY KEY); the remaining columns. *)
Record KeyRow := mkKey {
  product_id : option string;
  assigned_user_id : option Z;
  status : string;
  created_at : string;
  claimed_at : option string
}.

(** [access_logs]: rows in insertion order (AUTOINCREMENT id). *)
Record LogRow := mkLog {
  log_user_id : option Z;
  log_code : option string;
  action : string;
  reason : string;
  log_created_at : string
}.

Record Db := mkDb {
  users : gmap Z UserRow;
  nfc_keys : gmap string KeyRow;
  access_logs : list LogRow
}.

(** The world a handler runs in: the database, how many times [now_utc] has
    been read, and how many symbols were drawn from [secrets]. *)
Record World := mkWorld {
  db : Db;
  ticks : nat;
  drawn : nat
}.

Definition set_keys (k : gmap string KeyRow) (w : World) : World :=
  mkWorld (mkDb (users (db w)) k (access_logs (db w))) (ticks w) (drawn w).

Definition set_users (u : gmap Z UserRow) (w : World) : World :=
  mkWorld (mkDb u (nfc_keys (db w)) (access_logs (db w))) (ticks w) (drawn w).

Definition set_logs (l : list LogRow) (w : World) : World :=
  mkWorld (mkDb (users (db w)) (nfc_keys (db w)) l) (ticks w) (drawn w).

Definition tick (w : World) : World :=
  mkWorld (db w) (S (ticks w)) (drawn w).

Definition keys_of (w : World) : gmap string KeyRow := nfc_keys (db w).
Definition logs_of (w : World) : list LogRow := access_logs (db w).

(** ** The monad *)

Inductive Exn := IntegrityError | TelegramAPIError.

(** [Diverge]: the computation used up its loop budget (a [while True] that
    did not exit within the budget). *)
Inductive Res (A : Type) :=
| Ok (a : A) (w : World)
| Raise (e : Exn) (w : World)
| Diverge.
Arguments Ok {A} a w.
Arguments Raise {A} e w.
Arguments Diverge {A}.

Definition M (A : Type) := World -> Res A.

Definition ret {A} (a : A) : M A := fun w => Ok a w.

Definition bind {A B} (m : M A) (k : A -> M B) : M B :=
  fun w => match m w with
           | Ok a w' => k a w'
           | Raise e w' => Raise e w'
           | Diverge => Diverge
           end.

Definition raise {A} (e : Exn) : M A := fun w => Raise e w.
Definition diverge {A} : M A := fun _ => Diverge.

Definition read_keys : M (gmap string KeyRow) := fun w => Ok (keys_of w) w.

Notation "'let*' x ':=' m 'in' k" := (bind m (fun x => k))
  (at level 10, x pattern, m at level 100, k at level 200).

Module Bot.

Section WithSources.

(** [clock n] is the text [now_utc().isoformat()] returns at its [n]-th
    reading; [entropy n] is the [n]-th raw value of the system random source. *)
Variable clock : nat -> string.
Variable entropy : nat -> nat.

Definition now_utc : M string :=
  fun w => Ok (clock (ticks w)) (tick w).

(** [add_log]: one INSERT into [access_logs]. *)
Definition add_log (user_id : option Z) (code : option string)
    (act rsn : string) : M unit :=
  let* t := now_utc in
  fun w => Ok tt (set_logs (logs_of w ++ [mkLog user_id code act rsn t]) w).

(** The world [add_log] leaves. *)
Definition logged (user_id : option Z) (code : option string)
    (act rsn : string) (w : World) : World :=
  set_logs (logs_of w ++ [mkLog user_id code act rsn (clock (ticks w))]) (tick w).

(** [upsert_user]: UPDATE the username of a known user, INSERT a new one. *)
Definition upsert_user (user_id : Z) (uname : option string) : M unit :=
  fun w =>
    match users (db w) !! user_id with
    | Some u =>
        Ok tt (set_users (<[user_id := mkUser uname (first_seen u)]> (users (db w))) w)
    | None =>
        (let* t := now_utc in
         fun w' => Ok tt (set_users (<[user_id := mkUser uname t]> (users (db w'))) w')) w
    end.

(** [get_key]: SELECT of the whole row by primary key. *)
Definition get_key (code : string) : M (option KeyRow) :=
  fun w => Ok (keys_of w !! code) w.

(** The two statements of [claim_key_for_user]. *)
Definition select_status_owner (code : string) : M (option (string * option Z)) :=
  fun w => Ok ((fun r => (status r, assigned_user_id r)) <$> keys_of w !! code) w.

(** UPDATE nfc_keys SET assigned_user_id=?, status='claimed', claimed_at=?
    WHERE code=?  -- the WHERE clause names the code only. *)
Definition claim_row (user_id : Z) (t : string) (r : KeyRow) : KeyRow :=
  mkKey (product_id r) (Some user_id) "claimed" (created_at r) (Some t).

Definition update_claim (code : string) (user_id : Z) (t : string) : M unit :=
  fun w =>
    match keys_of w !! code with
    | Some r => Ok tt (set_keys (<[code := claim_row user_id t r]> (keys_of w)) w)
    | None => Ok tt w
    end.

Definition claim_key_for_user (code : string) (user_id : Z) : M bool :=
  let* row := select_status_owner code in
  match row with
  | None => ret false
  | Some (st, owner) =>
      if String.eqb st "revoked" then ret false
      else match owner with
           | None =>
               let* t := now_utc in
               let* _ := update_claim code user_id t in
               ret true
           | Some o => ret (Z.eqb o user_id)
           end
  end.

(** [revoke_key]: UPDATE nfc_keys SET status='revoked' WHERE code=?. *)
Definition revoke_row (r : KeyRow) : KeyRow :=
  mkKey (product_id r) (assigned_user_id r) "revoked" (created_at r) (claimed_at r).

Definition revoke_key (code : string) : M bool :=
  fun w =>
    match keys_of w !! code with
    | None => Ok false w
    | Some r => Ok true (set_keys (<[code := revoke_row r]> (keys_of w)) w)
    end.

(** *** Batch generation *)

(** [string.ascii_uppercase + string.digits] *)
Definition alphabet : list ascii :=
  list_ascii_of_string "ABCDEFGHIJKLMNOPQRSTUVWXYZ0123456789".

(** [secrets.choice(seq)] is [seq[randbelow(len(seq))]]: the next raw value
    of the random source reduced below the length of the sequence. *)
Definition secrets_choice (seq : list ascii) : M ascii :=
  fun w => Ok (nth (entropy (drawn w) mod length seq)%nat seq "000"%char)
              (mkWorld (db w) (ticks w) (S (drawn w))).

(** [secrets.choice(alphabet) for _ in range(n)] *)
Fixpoint choices (n : nat) : M (list ascii) :=
  match n with
  | O => ret []
  | S k =>
      let* c := secrets_choice alphabet in
      let* cs := choices k in
      ret (c :: cs)
  end.

(** ["".join(secrets.choice(alphabet) for _ in range(12))] *)
Definition random_code : M string :=
  let* cs := choices 12 in
  ret (string_of_list_ascii cs).

(** The symbol and the code drawn when the random source stands at [p], and
    the codes of [gas] successive draws from there. *)
Definition symbol_at (p : nat) : ascii :=
  nth (entropy p mod length alphabet)%nat alphabet "000"%char.

Definition code_at (p : nat) : string :=
  string_of_list_ascii (map (fun i => symbol_at (p + i)%nat) (seq 0 12)).

Definition candidates (p gas : nat) : list string :=
  map (fun k => code_at (p + 12 * k)%nat) (seq 0 gas).

Definition advance (n : nat) (w : World) : World :=
  mkWorld (db w) (ticks w) (drawn w + n)%nat.

(** The candidate codes of the next [gas] draws that are not in the table. *)
Definition fresh_candidates (gas : nat) (w : World) : gset string :=
  list_to_set (candidates (drawn w) gas) ∖ dom (keys_of w).

(** The [while True] loop: draw codes until one is not in the table.  [gas]
    bounds the number of draws left to the whole batch; the loop returns
    what it did not use. *)
Fixpoint fresh_code (gas : nat) : M (string * nat) :=
  match gas with
  | O => diverge
  | S g =>
      let* code := random_code in
      let* keys := read_keys in
      match keys !! code with
      | None => ret (code, g)
      | Some _ => fresh_code g
      end
  end.

(** INSERT INTO nfc_keys: a second row with the same primary key is refused. *)
Definition insert_key (code : string) (r : KeyRow) : M unit :=
  fun w =>
    match keys_of w !! code with
    | Some _ => Raise IntegrityError w
    | None => Ok tt (set_keys (<[code := r]> (keys_of w)) w)
    end.

(** The body of [for _ in range(amount)], [n] iterations left. *)
Fixpoint batch_loop (n gas : nat) (product : option string)
    (codes : list string) : M (list string) :=
  match n with
  | O => ret codes
  | S k =>
      let* (code, gas') := fresh_code gas in
      let* t := now_utc in
      let* _ := insert_key code (mkKey product None "new" t None) in
      batch_loop k gas' product (codes ++ [code])
  end.

(** [create_keys_batch]: the rows are committed once, after the loop; an
    exception leaves the connection without a commit, so the table is as it
    was. *)
Definition create_keys_batch (gas : nat) (amount : Z)
    (product : option string) : M (list string) :=
  fun w =>
    match batch_loop (Z.to_nat amount) gas product [] w with
    | Ok codes w' => Ok codes w'
    | Raise e w' => Raise e (set_keys (keys_of w) w')
    | Diverge => Diverge
    end.

(** *** The query of [cmd_access] *)

(** Order of the [claimed_at] column: NULL sorts before every text, texts
    compare byte by byte. *)
Definition claimed_leb (a b : option string) : bool :=
  match a, b with
  | None, _ => true
  | Some _, None => false
  | Some x, Some y => String.leb x y
  end.

(** WHERE assigned_user_id=? AND status='claimed' *)
Definition owned_claimed (user_id : Z) (r : KeyRow) : bool :=
  bool_decide (assigned_user_id r = Some user_id) && String.eqb (status r) "claimed".

Definition later_row (cr : string * KeyRow) (best : option (string * KeyRow))
    : option (string * KeyRow) :=
  match best with
  | None => Some cr
  | Some b => if claimed_leb (claimed_at (snd b)) (claimed_at (snd cr))
              then Some cr else Some b
  end.

(** SELECT code FROM nfc_keys WHERE ... ORDER BY claimed_at DESC LIMIT 1.
    Which of several rows with the same greatest [claimed_at] comes first is
    left open by SQL; here it is the one the scan meets first. *)
Definition select_latest_claim (user_id : Z) (keys : gmap string KeyRow)
    : option string :=
  fst <$> foldr later_row None
            (List.filter (fun cr => owned_claimed user_id (snd cr)) (map_to_list keys)).

(** *** Handlers *)

Inductive Reply :=
| ReplyGreeting
| ReplyCodeNotFound
| ReplyKeyRevoked
| ReplyOwnedByAnother
| ReplyKeyConfirmed (product : option string) (link : string)
| ReplyAccessNotFound
| ReplyAccessLink (link : string).

(** [bot.create_chat_invite_link]: the link the platform returns, or an
    error raised by the call. *)
Definition create_chat_invite_link (issued : option string) : M string :=
  match issued with
  | Some link => ret link
  | None => raise TelegramAPIError
  end.

(** [cmd_start], from [code = (command.args or "").strip()] on: [code] is
    that stripped text. *)
Definition cmd_start (user_id : Z) (uname : option string) (code : string)
    (issued : option string) : M Reply :=
  let* _ := upsert_user user_id uname in
  if String.eqb code "" then ret ReplyGreeting
  else
    let* _ := add_log (Some user_id) (Some code) "attempt" "start_param" in
    let* row := get_key code in
    match row with
    | None =>
        let* _ := add_log (Some user_id) (Some code) "rejected" "code_not_found" in
        ret ReplyCodeNotFound
    | Some r =>
        if String.eqb (status r) "revoked" then
          let* _ := add_log (Some user_id) (Some code) "rejected" "code_revoked" in
          ret ReplyKeyRevoked
        else
          let* ok := claim_key_for_user code user_id in
          if negb ok then
            let* _ := add_log (Some user_id) (Some code) "rejected" "owned_by_another" in
            ret ReplyOwnedByAnother
          else
            let* _ := now_utc in
            let* link := create_chat_invite_link issued in
            let* _ := add_log (Some user_id) (Some code) "invite_created" "start_flow" in
            ret (ReplyKeyConfirmed
                   (match product_id r with
                    | Some p => if String.eqb p "" then None else Some p
                    | None => None
                    end) link)
    end.

(** What [cmd_start] does once the claim has been granted: read the clock
    for the expiry, ask for the link, log it, answer. *)
Definition start_granted (user_id : Z) (code : string) (issued : option string)
    (r : KeyRow) (w : World) : Res Reply :=
  match issued with
  | Some link =>
      Ok (ReplyKeyConfirmed
            (match product_id r with
             | Some p => if String.eqb p "" then None else Some p
             | None => None
             end) link)
         (logged (Some user_id) (Some code) "invite_created" "start_flow" (tick w))
  | None => Raise TelegramAPIError (tick w)
  end.

Definition cmd_access (user_id : Z) (uname : option string)
    (issued : option string) : M Reply :=
  let* _ := upsert_user user_id uname in
  let* keys := read_keys in
  match select_latest_claim user_id keys with
  | None => ret ReplyAccessNotFound
  | Some code =>
      let* _ := now_utc in
      let* link := create_chat_invite_link issued in
      let* _ := add_log (Some user_id) (Some code) "invite_created" "access_cmd" in
      ret (ReplyAccessLink link)
  end.

(** *** Interleaving of claim requests

    Every request runs [claim_key_for_user] on a connection of its own, and
    every [await] is a point where another request may run.  The SELECT is a
    statement of its own (no transaction is open while it runs); what follows
    it up to the next [await] runs without interruption, so a request is
    suspended either before its SELECT or, having read an unowned row and the
    clock, before its UPDATE. *)
Inductive ClaimTask :=
| BeforeSelect (code : string) (user_id : Z)
| BeforeUpdate (code : string) (user_id : Z) (t : string)
| Returned (b : bool).

Definition claim_task_step (tk : ClaimTask) : M ClaimTask :=
  match tk with
  | BeforeSelect code user_id =>
      let* row := select_status_owner code in
      match row with
      | None => ret (Returned false)
      | Some (st, owner) =>
          if String.eqb st "revoked" then ret (Returned false)
          else match owner with
               | None =>
                   let* t := now_utc in
                   ret (BeforeUpdate code user_id t)
               | Some o => ret (Returned (Z.eqb o user_id))
               end
      end
  | BeforeUpdate code user_id t =>
      let* _ := update_claim code user_id t in
      ret (Returned true)
  | Returned b => ret (Returned b)
  end.

(** A schedule names, step by step, the request that runs next. *)
Fixpoint run_schedule (sched : list nat) (tasks : list ClaimTask)
    : M (list ClaimTask) :=
  match sched with
  | [] => ret tasks
  | i :: rest =>
      match tasks !! i with
      | None => run_schedule rest tasks
      | Some tk =>
          let* tk' := claim_task_step tk in
          run_schedule rest (<[i := tk']> tasks)
      end
  end.

(** *** Sequences of operations on the store *)

(** [n] successive calls of [claim_key_for_user], their answers in order. *)
Fixpoint claim_repeatedly (n : nat) (code : string) (user_id : Z) : M (list bool) :=
  match n with
  | O => ret []
  | S k =>
      let* b := claim_key_for_user code user_id in
      let* bs := claim_repeatedly k code user_id in
      ret (b :: bs)
  end.


Inductive Op :=
| OpClaim (code : string) (user_id : Z)
| OpRevoke (code : string)
| OpGenerate (gas : nat) (amount : Z) (product : option string)
| OpStart (user_id : Z) (uname : option string) (code : string) (issued : option string)
| OpAccess (user_id : Z) (uname : option string) (issued : option string).

(** The world an operation leaves behind; [None] when it does not return. *)
Definition world_after {A} (r : Res A) : option World :=
  match r with
  | Ok _ w => Some w
  | Raise _ w => Some w
  | Diverge => None
  end.

Definition exec_op (o : Op) (w : World) : option World :=
  match o with
  | OpClaim code user_id => world_after (claim_key_for_user code user_id w)
  | OpRevoke code => world_after (revoke_key code w)
  | OpGenerate gas amount product => world_after (create_keys_batch gas amount product w)
  | OpStart user_id uname code issued => world_after (cmd_start user_id uname code issued w)
  | OpAccess user_id uname issued => world_after (cmd_access user_id uname issued w)
  end.

Fixpoint exec_ops (os : list Op) (w : World) : option World :=
  match os with
  | [] => Some w
  | o :: rest =>
      match exec_op o w with
      | Some w' => exec_ops rest w'
      | None => None
      end
  end.

(** *** Operations and claims in flight

    What may run between two awaits of the others: a whole operation, or one
    step of a claim request that is under way.  [InFlight (BeforeUpdate c u t)]
    is the UPDATE of a request that read the row of [c] unowned earlier. *)
Inductive Event :=
| Whole (o : Op)
| InFlight (tk : ClaimTask).

Definition exec_event (e : Event) (w : World) : option World :=
  match e with
  | Whole o => exec_op o w
  | InFlight tk => world_after (claim_task_step tk w)
  end.

Fixpoint exec_events (es : list Event) (w : World) : option World :=
  match es with
  | [] => Some w
  | e :: rest =>
      match exec_event e w with
      | Some w' => exec_events rest w'
      | None => None
      end
  end.

(** Is [e] the pending UPDATE of a claim on [code]? *)
Definition pending_update_on (code : string) (e : Event) : bool :=
  match e with
  | InFlight (BeforeUpdate c _ _) => String.eqb c code
  | _ => false
  end.

(** *** Administrator commands *)

(** [ADMINS]: the identities read from the environment at start-up.
    [int]: Python's [int()] on a text, [None] when it raises. *)
Variable ADMINS : gset Z.
Variable int : string -> option Z.

Definition is_admin (user_id : Z) : bool := bool_decide (user_id ∈ ADMINS).

(** What an administrator command answers; the texts carry the listed data
    (formatting and the cut at 3900 characters are left out). *)
Inductive AdminReply :=
| AdminOnly
| GenFormat
| GenCreated (codes : list string)
| RevokeFormat
| RevokeOk
| RevokeNotFound
| WhoFormat
| WhoNotFound
| WhoRow (code : string) (r : KeyRow)
| LogsEmpty
| LogsRows (rows : list LogRow).

(** [(await bot.me()).username]: the platform call may raise. *)
Definition bot_me (me : option string) : M string :=
  match me with
  | Some name => ret name
  | None => raise TelegramAPIError
  end.

(** [int(args[0]) if args else 10] and [args[1] if len(args) > 1 else None]. *)
Definition gen_amount (args : list string) : option Z :=
  match args with
  | [] => Some 10
  | a :: _ => int a
  end.

Definition gen_product (args : list string) : option string :=
  match args with
  | _ :: p :: _ => Some p
  | _ => None
  end.

(** [cmd_gen]; [args] is [(command.args or "").split()]. *)
Definition cmd_gen (gas : nat) (user_id : Z) (args : list string)
    (me : option string) : M AdminReply :=
  if negb (is_admin user_id) then ret AdminOnly
  else
    match gen_amount args with
    | None => ret GenFormat
    | Some amount =>
        let* codes := create_keys_batch gas amount (gen_product args) in
        let* _ := bot_me me in
        ret (GenCreated codes)
    end.

(** [cmd_revoke]; [code] is [(command.args or "").strip()]. *)
Definition cmd_revoke (user_id : Z) (code : string) : M AdminReply :=
  if negb (is_admin user_id) then ret AdminOnly
  else if String.eqb code "" then ret RevokeFormat
  else
    let* ok := revoke_key code in
    ret (if ok then RevokeOk else RevokeNotFound).

(** [cmd_who]; [code] is [(command.args or "").strip()]. *)
Definition cmd_who (user_id : Z) (code : string) : M AdminReply :=
  if negb (is_admin user_id) then ret AdminOnly
  else if String.eqb code "" then ret WhoFormat
  else
    let* row := get_key code in
    match row with
    | None => ret WhoNotFound
    | Some r => ret (WhoRow code r)
    end.

(** SELECT ... FROM access_logs ORDER BY id DESC LIMIT ?  -- a negative
    LIMIT is no limit. *)
Definition select_recent_logs (limit : Z) (logs : list LogRow) : list LogRow :=
  if limit <? 0 then rev logs else take (Z.to_nat limit) (rev logs).

(** [int((command.args or "").strip() or 20)], 20 when that raises. *)
Definition logs_limit (arg : string) : Z :=
  if String.eqb arg "" then 20
  else match int arg with
       | Some n => n
       | None => 20
       end.

(** [cmd_logs]; [arg] is [(command.args or "").strip()].  A limit outside
    the 64-bit range is refused by the database driver with an error the
    handler does not catch: no reply, [None]. *)
Definition cmd_logs (user_id : Z) (arg : string) : M (option AdminReply) :=
  if negb (is_admin user_id) then ret (Some AdminOnly)
  else
    let limit := logs_limit arg in
    if (limit <? - 2 ^ 63) || (2 ^ 63 <=? limit) then ret None
    else
      fun w =>
        match select_recent_logs limit (logs_of w) with
        | [] => Ok (Some LogsEmpty) w
        | rows => Ok (Some (LogsRows rows)) w
        end.

(** *** Well-formed rows *)

(** A row is new and unowned, or claimed with its owner and claim time, or
    revoked from either. *)
Definition row_ok (r : KeyRow) : Prop :=
  (status r = "new" /\ assigned_user_id r = None /\ claimed_at r = None) \/
  (status r = "claimed" /\ is_Some (assigned_user_id r) /\ is_Some (claimed_at r)) \/
  (status r = "revoked" /\ (assigned_user_id r = None <-> claimed_at r = None)).

Definition keys_ok (k : gmap string KeyRow) : Prop :=
  forall c r, k !! c = Some r -> row_ok r.


(** [w'] has the users of [w] and its log with entries added at the end. *)
Definition log_extends (w w' : World) : Prop :=
  users (db w') = users (db w) /\ exists new, logs_of w' = logs_of w ++ new.


End WithSources.

End Bot.

Import Bot.

(** ** The decision procedure in the words of the specification *)

Inductive ClaimResult :=
| NOT_FOUND
| REJECTED_REVOKED
| GRANTED_NEW
| GRANTED_EXISTING
| REJECTED_OWNED_BY_OTHER.

(** Steps 1 to 5 of [attemptClaim], on the code store alone. *)
Definition spec_attemptClaim (code : string) (requester : Z) (now : string)
    (keys : gmap string KeyRow) : ClaimResult * gmap string KeyRow :=
  match keys !! code with
  | None => (NOT_FOUND, keys)
  | Some r =>
      if decide (status r = "revoked") then (REJECTED_REVOKED, keys)
      else match assigned_user_id r with
           | None =>
               (GRANTED_NEW,
                <[code := mkKey (product_id r) (Some requester) "claimed"
                                (created_at r) (Some now)]> keys)
           | Some o =>
               if decide (o = requester) then (GRANTED_EXISTING, keys)
               else (REJECTED_OWNED_BY_OTHER, keys)
           end
  end.

(** What a log row says, its timestamp left out. *)
Definition log_event (e : LogRow) : option Z * option string * string * string :=
  (log_user_id e, log_code e, action e, reason e).

(** How one row may differ after an operation: not at all, claimed from
    unowned and not revoked, or revoked. *)
Inductive row_step : KeyRow -> KeyRow -> Prop :=
| row_same r : row_step r r
| row_claimed r u t :
    assigned_user_id r = None -> status r <> "revoked" ->
    row_step r (claim_row u t r)
| row_revoked r : row_step r (revoke_row r).

Definition keys_step (k k' : gmap string KeyRow) : Prop :=
  forall c r, k !! c = Some r -> exists r', k' !! c = Some r' /\ row_step r r'.

(** Uppercase ASCII letter or decimal digit. *)
Definition upper_or_digit (ch : ascii) : bool :=
  let n := nat_of_ascii ch in
  ((65 <=? n) && (n <=? 90) || (48 <=? n) && (n <=? 57))%nat.

(** The three values the [status] column is ever given. *)
Definition valid_status (s : string) : Prop :=
  s = "new" \/ s = "claimed" \/ s = "revoked".

(** ** Sample data *)

Module Sample.

Definition clock (n : nat) : string :=
  ("2024-05-01T10:00:0" ++ String (ascii_of_nat (48 + n)) "+00:00")%string.

Definition entropy (n : nat) : nat := n.

Definition tag : string := "ABC123456789".

Definition fresh_row : KeyRow := mkKey None None "new" "2024-04-30T09:00:00+00:00" None.

Definition w0 : World := mkWorld (mkDb ∅ {[ tag := fresh_row ]} []) 0 0.

(** [w0] after identity 1 has claimed the tag at the first clock reading. *)
Definition w1 : World :=
  mkWorld (mkDb ∅ {[ tag := claim_row 1 (clock 0) fresh_row ]} []) 1 0.

(** [w1] after the tag has been revoked. *)
Definition w2 : World :=
  mkWorld (mkDb ∅ {[ tag := revoke_row (claim_row 1 (clock 0) fresh_row) ]} []) 1 0.

(** A store that already holds the first code [entropy] yields. *)
Definition w_taken : World :=
  mkWorld (mkDb ∅ {[ "ABCDEFGHIJKL" := fresh_row ]} []) 0 0.

Definition link : string := "https://t.me/+AbCdEf".

(** One administrator, and Python's [int()] on the few texts used below. *)
Definition ADMINS : gset Z := {[ 100 ]}.

Definition int (s : string) : option Z :=
  if String.eqb s "2" then Some 2
  else if String.eqb s "-5" then Some (-5)
  else if String.eqb s "1" then Some 1
  else None.

(** [w1] after a /start by identity 2 that was refused. *)
Definition w_seen : World :=
  match cmd_start clock 2 (Some "bob") tag (Some link) w1 with
  | Ok _ w => w
  | _ => w1
  end.

Definition bob : UserRow := mkUser (Some "bob") (clock 1).

Definition logged_ops : list Op :=
  [OpStart 2 (Some "bobby") "" None; OpRevoke tag;
   OpStart 1 (Some "ann") tag (Some link); OpGenerate 3 1 (Some "ring");
   OpAccess 2 None (Some link)].

(** Two requests for the same tag by identities 1 and 2. *)
Definition two_requests : list ClaimTask :=
  [BeforeSelect tag 1; BeforeSelect tag 2].

Definition later_ops : list Op :=
  [OpClaim tag 2; OpStart 2 None tag (Some link); OpGenerate 3 2 None;
   OpAccess 1 None (Some link); OpRevoke tag; OpClaim tag 1].

(** Operations and claim steps mixed: the pending UPDATE of identity 2 lands
    on the tag identity 1 already owns. *)
Definition mixed_events : list Event :=
  [InFlight (BeforeUpdate tag 2 (clock 1)); Whole (OpRevoke tag);
   Whole (OpGenerate 3 1 (Some "ring")); InFlight (BeforeSelect tag 3);
   Whole (OpStart 1 None tag (Some link))].

(** What may follow a revocation when no UPDATE on the tag is pending. *)
Definition events_after_revoke : list Event :=
  [InFlight (BeforeSelect tag 2); Whole (OpClaim tag 1);
   InFlight (BeforeUpdate "ABCDEFGHIJKL" 2 (clock 1));
   Whole (OpStart 2 None tag (Some link)); Whole (OpGenerate 3 1 None)].

End Sample.

(** ** Properties *)

(** *** Order of timestamps *)

Lemma ascii_compare_trans_le (a b c : ascii) :
  Ascii.compare a b <> Gt -> Ascii.compare b c <> Gt -> Ascii.compare a c <> Gt.
Proof.
  unfold Ascii.compare. rewrite !N.compare_le_iff. intros. etransitivity; eassumption.
Qed.

Lemma string_compare_trans_le (s1 : string) :
  forall s2 s3, String.compare s1 s2 <> Gt -> String.compare s2 s3 <> Gt ->
                String.compare s1 s3 <> Gt.
Proof.
  induction s1 as [|a s1 IH]; intros [|b s2] [|c s3]; simpl; try congruence.
  intros H12 H23.
  destruct (Ascii.compare a b) eqn:Eab.
  - apply Ascii.compare_eq_iff in Eab as ->.
    destruct (Ascii.compare b c) eqn:Ebc; try congruence. eauto.
  - destruct (Ascii.compare b c) eqn:Ebc; try congruence.
    + apply Ascii.compare_eq_iff in Ebc as <-. rewrite Eab. congruence.
    + assert (Hac : Ascii.compare a c = Lt).
      { unfold Ascii.compare in *. rewrite N.compare_lt_iff in *. lia. }
      rewrite Hac. congruence.
  - congruence.
Qed.

Lemma string_leb_trans (s1 s2 s3 : string) :
  String.leb s1 s2 = true -> String.leb s2 s3 = true -> String.leb s1 s3 = true.
Proof.
  unfold String.leb. intros H12 H23.
  assert (String.compare s1 s3 <> Gt) as H.
  { apply (string_compare_trans_le s1 s2 s3).
    - destruct (String.compare s1 s2); congruence.
    - destruct (String.compare s2 s3); congruence. }
  destruct (String.compare s1 s3); congruence.
Qed.

Lemma claimed_leb_trans (a b c : option string) :
  claimed_leb a b = true -> claimed_leb b c = true -> claimed_leb a c = true.
Proof.
  destruct a, b, c; simpl; try congruence. apply string_leb_trans.
Qed.

Lemma claimed_leb_total (a b : option string) :
  claimed_leb a b = true \/ claimed_leb b a = true.
Proof.
  destruct a, b; simpl; auto. apply String.leb_total.
Qed.

Lemma claimed_leb_refl (a : option string) : claimed_leb a a = true.
Proof. destruct (claimed_leb_total a a); assumption. Qed.

Section Properties.

Variable clock : nat -> string.
Variable entropy : nat -> nat.

#[local] Abbreviation claim_key_for_user := (claim_key_for_user clock).
#[local] Abbreviation claim_repeatedly := (claim_repeatedly clock).
#[local] Abbreviation logged := (logged clock).
#[local] Abbreviation start_granted := (start_granted clock).
#[local] Abbreviation symbol_at := (symbol_at entropy).
#[local] Abbreviation code_at := (code_at entropy).
#[local] Abbreviation candidates := (candidates entropy).
#[local] Abbreviation fresh_candidates := (fresh_candidates entropy).
#[local] Abbreviation add_log := (add_log clock).
#[local] Abbreviation upsert_user := (upsert_user clock).
#[local] Abbreviation cmd_start := (cmd_start clock).
#[local] Abbreviation cmd_access := (cmd_access clock).
#[local] Abbreviation create_keys_batch := (create_keys_batch clock entropy).
#[local] Abbreviation batch_loop := (batch_loop clock entropy).
#[local] Abbreviation fresh_code := (fresh_code entropy).
#[local] Abbreviation random_code := (random_code entropy).
#[local] Abbreviation choices := (choices entropy).
#[local] Abbreviation exec_op := (exec_op clock entropy).
#[local] Abbreviation exec_ops := (exec_ops clock entropy).

(** *** Equations of the database functions *)

Lemma claim_key_for_user_eq code user_id w :
  claim_key_for_user code user_id w =
  match keys_of w !! code with
  | None => Ok false w
  | Some r =>
      if String.eqb (status r) "revoked" then Ok false w
      else match assigned_user_id r with
           | None =>
               Ok true (set_keys (<[code := claim_row user_id (clock (ticks w)) r]> (keys_of w))
                                 (tick w))
           | Some o => Ok (Z.eqb o user_id) w
           end
  end.
Proof.
  unfold claim_key_for_user, bind, select_status_owner.
  destruct (keys_of w !! code) as [r|] eqn:E; simpl; [|reflexivity].
  destruct (String.eqb (status r) "revoked"); [reflexivity|].
  destruct (assigned_user_id r); [reflexivity|].
  unfold update_claim. change (keys_of (tick w)) with (keys_of w). rewrite E. reflexivity.
Qed.

Lemma add_log_eq u c a r w : add_log u c a r w = Ok tt (logged u c a r w).
Proof. reflexivity. Qed.

Lemma upsert_user_keys user_id uname w :
  exists w', upsert_user user_id uname w = Ok tt w' /\
             keys_of w' = keys_of w /\ logs_of w' = logs_of w /\
             drawn w' = drawn w /\ (ticks w <= ticks w' <= S (ticks w))%nat.
Proof.
  unfold upsert_user. destruct (users (db w) !! user_id).
  - eexists; split; [reflexivity|]. simpl. repeat split; lia.
  - eexists; split; [reflexivity|]. simpl. repeat split; lia.
Qed.

Lemma revoke_key_eq code w :
  revoke_key code w =
  match keys_of w !! code with
  | None => Ok false w
  | Some r => Ok true (set_keys (<[code := revoke_row r]> (keys_of w)) w)
  end.
Proof. reflexivity. Qed.

(** *** Revocation *)

(** C9: [revoke_key] answers "not found" exactly when the code has no row;
    otherwise it answers success, the row's status is [revoked] whatever it
    was, its product, owner, creation and claim time are as before, and no
    other row, user or log entry changes. *)
Theorem revoke_key_frame (code : string) (w : World) :
  exists b w',
    revoke_key code w = Ok b w' /\
    (b = false <-> keys_of w !! code = None) /\
    (b = false -> w' = w) /\
    (forall r, keys_of w !! code = Some r ->
       exists r', keys_of w' !! code = Some r' /\
                  status r' = "revoked" /\
                  product_id r' = product_id r /\
                  assigned_user_id r' = assigned_user_id r /\
                  created_at r' = created_at r /\
                  claimed_at r' = claimed_at r) /\
    (forall c, c <> code -> keys_of w' !! c = keys_of w !! c) /\
    users (db w') = users (db w) /\
    logs_of w' = logs_of w /\
    ticks w' = ticks w.
Proof.
  rewrite revoke_key_eq.
  destruct (keys_of w !! code) as [r|] eqn:E.
  - exists true, (set_keys (<[code := revoke_row r]> (keys_of w)) w).
    split; [reflexivity|].
    split; [split; congruence|].
    split; [congruence|].
    split.
    { intros r0 [= <-]. exists (revoke_row r).
      unfold keys_of at 1; simpl. rewrite lookup_insert_eq. auto 10. }
    split; [|auto].
    intros c Hc. unfold keys_of at 1; simpl. by rewrite lookup_insert_ne.
  - exists false, w. split; [reflexivity|].
    split; [tauto|]. split; [auto|]. split; [congruence|]. auto.
Qed.

(** *** Re-claim by the owner *)

Lemma claim_granted_row code user_id w w' :
  claim_key_for_user code user_id w = Ok true w' ->
  exists r, keys_of w' !! code = Some r /\
            assigned_user_id r = Some user_id /\
            status r <> "revoked".
Proof.
  rewrite claim_key_for_user_eq.
  destruct (keys_of w !! code) as [r|] eqn:E; [|congruence].
  destruct (String.eqb_spec (status r) "revoked") as [|Hs]; [congruence|].
  destruct (assigned_user_id r) as [o|] eqn:Eo.
  - intros [= Ho <-]. apply Z.eqb_eq in Ho as ->. eauto.
  - intros [= <-]. exists (claim_row user_id (clock (ticks w)) r).
    unfold keys_of at 1; simpl. rewrite lookup_insert_eq. split; [done|].
    split; [done|]. discriminate.
Qed.

Lemma claim_by_owner code user_id w r :
  keys_of w !! code = Some r ->
  assigned_user_id r = Some user_id ->
  status r <> "revoked" ->
  claim_key_for_user code user_id w = Ok true w.
Proof.
  intros E Eo Hs. rewrite claim_key_for_user_eq, E.
  destruct (String.eqb_spec (status r) "revoked"); [done|].
  by rewrite Eo, Z.eqb_refl.
Qed.

(** C4: once [claim_key_for_user code u] has granted, calling it again for
    the same identity any number of times grants every time and leaves the
    world, the code store included, exactly as it was. *)
Theorem reclaim_idempotent (code : string) (user_id : Z) (w w' : World) (n : nat) :
  claim_key_for_user code user_id w = Ok true w' ->
  claim_repeatedly n code user_id w' = Ok (repeat true n) w'.
Proof.
  intros H. apply claim_granted_row in H as (r & E & Eo & Hs).
  induction n as [|n IH]; [reflexivity|].
  simpl. unfold bind at 1. rewrite (claim_by_owner _ _ _ _ E Eo Hs).
  unfold bind at 1. by rewrite IH.
Qed.

(** *** The /start flow *)

Lemma cmd_start_eq user_id uname code issued w w1 :
  code <> "" ->
  upsert_user user_id uname w = Ok tt w1 ->
  cmd_start user_id uname code issued w =
  let w2 := logged (Some user_id) (Some code) "attempt" "start_param" w1 in
  match keys_of w1 !! code with
  | None =>
      Ok ReplyCodeNotFound (logged (Some user_id) (Some code) "rejected" "code_not_found" w2)
  | Some r =>
      if String.eqb (status r) "revoked" then
        Ok ReplyKeyRevoked (logged (Some user_id) (Some code) "rejected" "code_revoked" w2)
      else match assigned_user_id r with
           | None =>
               start_granted user_id code issued r
                 (set_keys (<[code := claim_row user_id (clock (ticks w2)) r]> (keys_of w1))
                           (tick w2))
           | Some o =>
               if Z.eqb o user_id then start_granted user_id code issued r w2
               else Ok ReplyOwnedByAnother
                      (logged (Some user_id) (Some code) "rejected" "owned_by_another" w2)
           end
  end.
Proof.
  intros Hne Hup. unfold cmd_start, bind at 1. rewrite Hup.
  destruct (String.eqb_spec code "") as [|_]; [done|].
  unfold bind at 1. rewrite add_log_eq. cbv zeta.
  set (w2 := logged _ _ _ _ w1).
  assert (Hk2 : keys_of w2 = keys_of w1) by reflexivity.
  unfold bind at 1, get_key. rewrite Hk2.
  destruct (keys_of w1 !! code) as [r|] eqn:E; [|reflexivity].
  destruct (String.eqb (status r) "revoked") eqn:Hs; [reflexivity|].
  unfold bind at 1. rewrite claim_key_for_user_eq, Hk2, E, Hs.
  destruct (assigned_user_id r) as [o|].
  - destruct (Z.eqb o user_id); simpl negb; cbv iota; [|reflexivity].
    unfold start_granted. destruct issued; reflexivity.
  - simpl negb; cbv iota. unfold start_granted. destruct issued; reflexivity.
Qed.

(** C3: [cmd_start] with a non-empty code decides as the five steps of
    [spec_attemptClaim] do, taken at a clock reading of the call: no row -
    "not found"; revoked - "revoked"; unowned - granted, the row now owned by
    the requester, [claimed], claimed at that reading; owned by the requester
    - granted; owned by someone else - "owned by another"; and the code
    store afterwards is the one the five steps leave (unchanged except in the
    unowned case).  Both granted results lead to the same reply: the invite
    link, or the error of the platform call that should have issued it. *)
Theorem cmd_start_decision (user_id : Z) (uname : option string) (code : string)
    (issued : option string) (w : World) :
  code <> "" ->
  exists n w',
    (ticks w <= n < ticks w')%nat /\
    keys_of w' = snd (spec_attemptClaim code user_id (clock n) (keys_of w)) /\
    match fst (spec_attemptClaim code user_id (clock n) (keys_of w)) with
    | NOT_FOUND => cmd_start user_id uname code issued w = Ok ReplyCodeNotFound w'
    | REJECTED_REVOKED => cmd_start user_id uname code issued w = Ok ReplyKeyRevoked w'
    | REJECTED_OWNED_BY_OTHER =>
        cmd_start user_id uname code issued w = Ok ReplyOwnedByAnother w'
    | GRANTED_NEW | GRANTED_EXISTING =>
        match issued with
        | Some link =>
            exists p, cmd_start user_id uname code issued w = Ok (ReplyKeyConfirmed p link) w'
        | None => cmd_start user_id uname code issued w = Raise TelegramAPIError w'
        end
    end.
Proof.
  intros Hne.
  destruct (upsert_user_keys user_id uname w) as (w1 & Hup & Hk1 & _ & _ & Ht1).
  rewrite (cmd_start_eq _ _ _ issued _ _ Hne Hup). cbv zeta.
  set (w2 := logged _ _ _ _ w1).
  assert (Ht2 : ticks w2 = S (ticks w1)) by reflexivity.
  exists (ticks w2).
  unfold spec_attemptClaim. rewrite Hk1.
  destruct (keys_of w !! code) as [r|] eqn:E.
  - destruct (String.eqb_spec (status r) "revoked") as [Hs|Hs].
    + rewrite decide_True by done.
      eexists. split; [|split; [|reflexivity]]; simpl; [lia|done].
    + rewrite decide_False by done.
      destruct (assigned_user_id r) as [o|] eqn:Eo.
      * destruct (Z.eqb_spec o user_id) as [->|Ho].
        -- rewrite decide_True by done. unfold start_granted.
           destruct issued as [link|]; simpl.
           ++ eexists. split; [|split; [|eexists; reflexivity]]; simpl; [lia|done].
           ++ eexists. split; [|split; [|reflexivity]]; simpl; [lia|done].
        -- rewrite decide_False by done.
           eexists. split; [|split; [|reflexivity]]; simpl; [lia|done].
      * unfold start_granted. destruct issued as [link|]; simpl.
        ++ eexists. split; [|split; [|eexists; reflexivity]]; simpl; [lia|done].
        ++ eexists. split; [|split; [|reflexivity]]; simpl; [lia|done].
  - eexists. split; [|split; [|reflexivity]]; simpl; [lia|done].
Qed.

(** *** Batch generation *)

Lemma choices_eq n w :
  choices n w =
  Ok (map (fun i => symbol_at (drawn w + i)%nat) (seq 0 n)) (advance n w).
Proof.
  revert w. induction n as [|n IH]; intros w.
  - simpl. unfold ret, advance. destruct w as [d t p]; simpl. by rewrite Nat.add_0_r.
  - cbn [Bot.choices]. unfold bind at 1, secrets_choice.
    unfold bind at 1. rewrite IH. unfold ret, advance; simpl.
    rewrite <- seq_shift, map_map. f_equal.
    + f_equal.
      * unfold Bot.symbol_at. by rewrite Nat.add_0_r.
      * apply map_ext. intros i. f_equal. lia.
    + f_equal. lia.
Qed.

Lemma random_code_eq w : random_code w = Ok (code_at (drawn w)) (advance 12 w).
Proof. unfold Bot.random_code, bind. by rewrite choices_eq. Qed.

Lemma fresh_code_S g w :
  fresh_code (S g) w =
  match keys_of w !! code_at (drawn w) with
  | None => Ok (code_at (drawn w), g) (advance 12 w)
  | Some _ => fresh_code g (advance 12 w)
  end.
Proof.
  cbn [Bot.fresh_code]. unfold bind at 1. rewrite random_code_eq.
  unfold bind, read_keys. change (keys_of (advance 12 w)) with (keys_of w).
  destruct (keys_of w !! code_at (drawn w)); reflexivity.
Qed.

Lemma fresh_code_spec gas w :
  match fresh_code gas w with
  | Ok (c, _) w' =>
      keys_of w !! c = None /\ (exists p, c = code_at p) /\
      db w' = db w /\ ticks w' = ticks w
  | Raise _ _ => False
  | Diverge => True
  end.
Proof.
  revert w. induction gas as [|g IH]; intros w; [exact I|].
  rewrite fresh_code_S.
  destruct (keys_of w !! code_at (drawn w)) eqn:E.
  - specialize (IH (advance 12 w)).
    destruct (fresh_code g (advance 12 w)) as [[c g'] w'| |]; auto.
  - eauto 10.
Qed.

Lemma batch_loop_S k gas product codes w :
  batch_loop (S k) gas product codes w =
  match fresh_code gas w with
  | Ok (c, g') w1 =>
      match keys_of w1 !! c with
      | Some _ => Raise IntegrityError (tick w1)
      | None =>
          batch_loop k g' product (codes ++ [c])
            (set_keys (<[c := mkKey product None "new" (clock (ticks w1)) None]> (keys_of w1))
                      (tick w1))
      end
  | Raise e w1 => Raise e w1
  | Diverge => Diverge
  end.
Proof.
  cbn [Bot.batch_loop]. unfold bind at 1.
  destruct (fresh_code gas w) as [[c g'] w1| |]; try reflexivity.
  unfold bind, now_utc, insert_key.
  change (keys_of (tick w1)) with (keys_of w1).
  destruct (keys_of w1 !! c); reflexivity.
Qed.

Lemma batch_loop_spec product n :
  forall gas codes w,
    match batch_loop n gas product codes w with
    | Ok cs w' =>
        exists new,
          cs = codes ++ new /\ length new = n /\ NoDup new /\
          (forall c, c ∈ new ->
             keys_of w !! c = None /\ (exists p, c = code_at p) /\
             exists t, keys_of w' !! c = Some (mkKey product None "new" t None)) /\
          (forall c, c ∉ new -> keys_of w' !! c = keys_of w !! c) /\
          users (db w') = users (db w) /\ logs_of w' = logs_of w
    | Raise _ _ => False
    | Diverge => True
    end.
Proof.
  induction n as [|n IH]; intros gas codes w.
  - simpl. exists []. rewrite app_nil_r.
    split; [done|]. split; [done|]. split; [apply NoDup_nil_2|].
    split; [|done]. intros c' Hc'. by apply not_elem_of_nil in Hc'.
  - rewrite batch_loop_S.
    pose proof (fresh_code_spec gas w) as Hf.
    destruct (fresh_code gas w) as [[c g'] w1| |]; [|done|done].
    destruct Hf as (Hfresh & Hwf & Hdb & Ht).
    assert (Hk1 : keys_of w1 = keys_of w) by (unfold keys_of; by rewrite Hdb).
    rewrite Hk1, Hfresh.
    set (w2 := set_keys _ (tick w1)).
    specialize (IH g' (codes ++ [c]) w2).
    destruct (batch_loop n g' product (codes ++ [c]) w2) as [cs w'| |]; [|done|done].
    destruct IH as (new & -> & Hlen & Hnd & Hnew & Hold & Hu & Hl).
    assert (Hk2 : forall c', keys_of w2 !! c' =
                    <[c := mkKey product None "new" (clock (ticks w1)) None]> (keys_of w) !! c').
    { reflexivity. }
    assert (Hc_new : c ∉ new).
    { intros Hin. destruct (Hnew c Hin) as (Hnone & _). rewrite Hk2, lookup_insert_eq in Hnone.
      discriminate. }
    exists (c :: new). split; [by rewrite <- app_assoc|].
    split; [simpl; by rewrite Hlen|].
    split; [by apply NoDup_cons_2|].
    split; [|split].
    + intros c' [->|Hin]%elem_of_cons.
      * split; [done|]. split; [done|].
        rewrite (Hold c Hc_new), Hk2, lookup_insert_eq. eauto.
      * destruct (Hnew c' Hin) as (Hnone & Hp & Hrow).
        split; [|by split].
        rewrite Hk2 in Hnone. rewrite lookup_insert_ne in Hnone; [done|].
        intros ->. done.
      + intros c' Hc'. apply not_elem_of_cons in Hc' as [Hne Hnin].
        rewrite (Hold c' Hnin), Hk2. by rewrite lookup_insert_ne.
      + rewrite Hu, Hl. unfold w2, logs_of; simpl. by rewrite Hdb.
Qed.

Lemma candidates_S p g : candidates p (S g) = code_at p :: candidates (p + 12) g.
Proof.
  unfold Bot.candidates. rewrite <- cons_seq. cbn [map]. f_equal.
  - f_equal. lia.
  - rewrite <- seq_shift, map_map. apply map_ext. intros k. f_equal. lia.
Qed.

Lemma batch_loop_returns product gas :
  forall n codes w,
    (n <= size (fresh_candidates gas w))%nat ->
    exists cs w', batch_loop n gas product codes w = Ok cs w'.
Proof.
  induction gas as [|g IH]; intros n codes w Hn.
  - unfold Bot.fresh_candidates in Hn. simpl in Hn.
    rewrite difference_disjoint_L, size_empty in Hn by set_solver.
    assert (n = O) as -> by lia. simpl. eauto.
  - destruct n as [|k]; [simpl; eauto|].
    rewrite batch_loop_S, fresh_code_S.
    unfold Bot.fresh_candidates in Hn. rewrite candidates_S in Hn.
    cbn [list_to_set foldr] in Hn.
    destruct (keys_of w !! code_at (drawn w)) as [r|] eqn:E.
    + rewrite <- batch_loop_S. apply IH.
      unfold Bot.fresh_candidates. simpl drawn.
      change (keys_of (advance 12 w)) with (keys_of w).
      etransitivity; [exact Hn|]. apply Nat.eq_le_incl. f_equal.
      assert (Hin : code_at (drawn w) ∈ dom (keys_of w)) by (apply elem_of_dom; eauto).
      revert Hin. generalize (code_at (drawn w)), (dom (keys_of w)),
        (list_to_set (candidates (drawn w + 12) g) : gset string).
      clear. intros c D T Hin. apply set_eq. intros x.
      rewrite !elem_of_difference, elem_of_union, elem_of_singleton.
      split; [|tauto]. intros [[->|Hx] Hd]; [done|tauto].
    + change (keys_of (advance 12 w)) with (keys_of w). rewrite E.
      apply IH.
      unfold Bot.fresh_candidates. simpl drawn.
      unfold keys_of at 1; simpl nfc_keys. rewrite dom_insert_L.
      revert Hn. generalize (code_at (drawn w)), (dom (keys_of w)),
        (list_to_set (candidates (drawn w + 12) g) : gset string).
      clear. intros c D T Hn.
      assert (Hsub : ({[c]} ∪ T) ∖ D ⊆ {[c]} ∪ T ∖ ({[c]} ∪ D)).
      { intros x. rewrite !elem_of_union, !elem_of_difference, !elem_of_union,
          !elem_of_singleton. destruct (decide (x = c)); tauto. }
      apply subseteq_size in Hsub.
      assert (Hd : ({[c]} : gset string) ## T ∖ ({[c]} ∪ D)).
      { intros x. rewrite elem_of_singleton, elem_of_difference, elem_of_union,
          elem_of_singleton. tauto. }
      rewrite (size_union _ _ Hd), size_singleton in Hsub. lia.
Qed.

Lemma create_keys_batch_ok gas amount product w codes w' :
  create_keys_batch gas amount product w = Ok codes w' ->
  batch_loop (Z.to_nat amount) gas product [] w = Ok codes w'.
Proof.
  unfold Bot.create_keys_batch.
  destruct (batch_loop (Z.to_nat amount) gas product [] w); congruence.
Qed.

(** C7: [create_keys_batch] never lets the refusal of a duplicate insert
    reach its caller; whenever the draws it is allowed contain as many
    distinct unused codes as were asked for it returns; and what it returns
    is exactly [amount] codes, pairwise distinct, none of them in the table
    before, each now a row with status [new], no owner and no claim time,
    all other rows being as they were. *)
Theorem create_keys_batch_fresh (gas : nat) (amount : Z) (product : option string)
    (w : World) :
  (forall e w', create_keys_batch gas amount product w <> Raise e w') /\
  ((Z.to_nat amount <= size (fresh_candidates gas w))%nat ->
   exists codes w', create_keys_batch gas amount product w = Ok codes w') /\
  (forall codes w',
     create_keys_batch gas amount product w = Ok codes w' ->
     length codes = Z.to_nat amount /\
     (0 <= amount -> Z.of_nat (length codes) = amount) /\
     NoDup codes /\
     (forall c, c ∈ codes ->
        keys_of w !! c = None /\
        exists t, keys_of w' !! c = Some (mkKey product None "new" t None)) /\
     (forall c, c ∉ codes -> keys_of w' !! c = keys_of w !! c)).
Proof.
  pose proof (batch_loop_spec product (Z.to_nat amount) gas [] w) as Hspec.
  split; [|split].
  - intros e w' H. unfold Bot.create_keys_batch in H.
    destruct (batch_loop (Z.to_nat amount) gas product [] w); [discriminate|done|discriminate].
  - intros Hn.
    destruct (batch_loop_returns product gas _ [] w Hn) as (cs & w' & H).
    exists cs, w'. unfold Bot.create_keys_batch. by rewrite H.
  - intros codes w' H. apply create_keys_batch_ok in H. rewrite H in Hspec.
    destruct Hspec as (new & -> & Hlen & Hnd & Hnew & Hold & _).
    simpl. split; [done|]. split; [lia|]. split; [done|]. split; [|done].
    intros c Hc. destruct (Hnew c Hc) as (? & _ & ?). done.
Qed.

(** *** Shape of the codes *)

Lemma alphabet_upper_or_digit (ch : ascii) :
  ch ∈ alphabet <-> upper_or_digit ch = true.
Proof.
  rewrite <- (bool_decide_spec (ch ∈ alphabet)).
  destruct ch as [[] [] [] [] [] [] [] []]; vm_compute;
    (split; intros H; first [exact I | reflexivity | discriminate H | destruct H]).
Qed.

Lemma symbol_at_alphabet p : symbol_at p ∈ alphabet.
Proof.
  unfold Bot.symbol_at. apply list_elem_of_In, nth_In.
  apply Nat.mod_upper_bound. discriminate.
Qed.

Lemma code_at_shape p :
  String.length (code_at p) = 12%nat /\
  forall ch, ch ∈ list_ascii_of_string (code_at p) -> ch ∈ alphabet.
Proof.
  unfold Bot.code_at. split; [reflexivity|].
  intros ch. rewrite list_ascii_of_string_of_list_ascii.
  intros Hin. apply list_elem_of_In, in_map_iff in Hin as (i & <- & _).
  apply symbol_at_alphabet.
Qed.

(** C10: the alphabet is the 36 uppercase ASCII letters and decimal digits,
    and every code [create_keys_batch] returns is 12 characters long, each
    of them from that alphabet. *)
Theorem generated_code_shape (gas : nat) (amount : Z) (product : option string)
    (w w' : World) (codes : list string) (c : string) :
  create_keys_batch gas amount product w = Ok codes w' ->
  c ∈ codes ->
  length alphabet = 36%nat /\ NoDup alphabet /\
  (forall ch, ch ∈ alphabet <-> upper_or_digit ch = true) /\
  String.length c = 12%nat /\
  forall ch, ch ∈ list_ascii_of_string c -> ch ∈ alphabet.
Proof.
  intros H Hc. apply create_keys_batch_ok in H.
  pose proof (batch_loop_spec product (Z.to_nat amount) gas [] w) as Hspec.
  rewrite H in Hspec. destruct Hspec as (new & -> & _ & _ & Hnew & _).
  destruct (Hnew c Hc) as (_ & (p & ->) & _).
  split; [reflexivity|]. split; [apply (bool_decide_unpack _); vm_compute; exact I|].
  split; [apply alphabet_upper_or_digit|]. apply code_at_shape.
Qed.

(** *** The /access flow *)

Lemma later_row_greatest (l : list (string * KeyRow)) :
  match foldr later_row None l with
  | None => l = []
  | Some b =>
      b ∈ l /\
      forall x, x ∈ l -> claimed_leb (claimed_at (snd x)) (claimed_at (snd b)) = true
  end.
Proof.
  induction l as [|x l IH]; [reflexivity|].
  cbn [foldr]. destruct (foldr later_row None l) as [b|]; cbn [later_row].
  - destruct IH as [Hb Hmax].
    destruct (claimed_leb (claimed_at (snd b)) (claimed_at (snd x))) eqn:Hbx.
    + split; [apply elem_of_cons; auto|].
      intros y [->|Hy]%elem_of_cons; [apply claimed_leb_refl|].
      eapply claimed_leb_trans; [apply Hmax, Hy|exact Hbx].
    + split; [apply elem_of_cons; auto|].
      intros y [->|Hy]%elem_of_cons; [|auto].
      destruct (claimed_leb_total (claimed_at (snd x)) (claimed_at (snd b))); congruence.
  - subst l. split; [apply elem_of_cons; auto|].
    intros y [->|Hy]%elem_of_cons; [apply claimed_leb_refl|].
    by apply not_elem_of_nil in Hy.
Qed.

Lemma owned_claimed_spec user_id r :
  owned_claimed user_id r = true <->
  assigned_user_id r = Some user_id /\ status r = "claimed".
Proof.
  unfold owned_claimed. rewrite andb_true_iff, bool_decide_eq_true, String.eqb_eq. tauto.
Qed.

Lemma matching_rows user_id (keys : gmap string KeyRow) c r :
  (c, r) ∈ List.filter (fun cr => owned_claimed user_id (snd cr)) (map_to_list keys) <->
  keys !! c = Some r /\ assigned_user_id r = Some user_id /\ status r = "claimed".
Proof.
  rewrite list_elem_of_In, filter_In, <- list_elem_of_In, elem_of_map_to_list.
  simpl. by rewrite owned_claimed_spec.
Qed.

Lemma select_latest_claim_spec user_id (keys : gmap string KeyRow) :
  match select_latest_claim user_id keys with
  | Some c =>
      exists r, keys !! c = Some r /\
                assigned_user_id r = Some user_id /\ status r = "claimed" /\
                forall c' r', keys !! c' = Some r' ->
                              assigned_user_id r' = Some user_id ->
                              status r' = "claimed" ->
                              claimed_leb (claimed_at r') (claimed_at r) = true
  | None =>
      forall c' r', keys !! c' = Some r' ->
                    ~ (assigned_user_id r' = Some user_id /\ status r' = "claimed")
  end.
Proof.
  unfold select_latest_claim.
  pose proof (later_row_greatest
                (List.filter (fun cr => owned_claimed user_id (snd cr)) (map_to_list keys))) as H.
  destruct (foldr later_row None _) as [[c r]|]; simpl.
  - destruct H as [Hin Hmax]. apply matching_rows in Hin as (Hc & Ho & Hs).
    exists r. repeat (split; [done|]).
    intros c' r' Hc' Ho' Hs'. apply (Hmax (c', r')). by apply matching_rows.
  - intros c' r' Hc' [Ho' Hs'].
    assert (Hin : (c', r') ∈ List.filter (fun cr => owned_claimed user_id (snd cr))
                                 (map_to_list keys)) by by apply matching_rows.
    rewrite H in Hin. by apply not_elem_of_nil in Hin.
Qed.

Lemma cmd_access_eq user_id uname issued w w1 :
  upsert_user user_id uname w = Ok tt w1 ->
  cmd_access user_id uname issued w =
  match select_latest_claim user_id (keys_of w1) with
  | None => Ok ReplyAccessNotFound w1
  | Some c =>
      match issued with
      | Some link =>
          Ok (ReplyAccessLink link)
             (logged (Some user_id) (Some c) "invite_created" "access_cmd" (tick w1))
      | None => Raise TelegramAPIError (tick w1)
      end
  end.
Proof.
  intros Hup. unfold Bot.cmd_access, bind at 1. rewrite Hup.
  unfold bind at 1, read_keys.
  destruct (select_latest_claim user_id (keys_of w1)); [|reflexivity].
  destruct issued; reflexivity.
Qed.

(** C8: [cmd_access] leaves the code store as it was.  When no row is both
    [claimed] and owned by the requester it answers "not found"; otherwise
    the code it asks a link for and logs is that of such a row whose
    [claimed_at] is greatest among all such rows. *)
Theorem cmd_access_latest (user_id : Z) (uname : option string)
    (issued : option string) (w : World) :
  exists w',
    world_after (cmd_access user_id uname issued w) = Some w' /\
    keys_of w' = keys_of w /\
    match select_latest_claim user_id (keys_of w) with
    | None =>
        cmd_access user_id uname issued w = Ok ReplyAccessNotFound w' /\
        logs_of w' = logs_of w /\
        forall c' r', keys_of w !! c' = Some r' ->
                      ~ (assigned_user_id r' = Some user_id /\ status r' = "claimed")
    | Some c =>
        match issued with
        | Some link =>
            cmd_access user_id uname issued w = Ok (ReplyAccessLink link) w' /\
            exists t, logs_of w' =
                      logs_of w ++ [mkLog (Some user_id) (Some c) "invite_created" "access_cmd" t]
        | None => cmd_access user_id uname issued w = Raise TelegramAPIError w'
        end /\
        exists r, keys_of w !! c = Some r /\
                  assigned_user_id r = Some user_id /\ status r = "claimed" /\
                  forall c' r', keys_of w !! c' = Some r' ->
                                assigned_user_id r' = Some user_id ->
                                status r' = "claimed" ->
                                claimed_leb (claimed_at r') (claimed_at r) = true
    end.
Proof.
  destruct (upsert_user_keys user_id uname w) as (w1 & Hup & Hk1 & Hl1 & _ & _).
  pose proof (select_latest_claim_spec user_id (keys_of w)) as Hsel.
  rewrite (cmd_access_eq _ _ issued _ _ Hup), Hk1.
  destruct (select_latest_claim user_id (keys_of w)) as [c|].
  - destruct issued as [link|].
    + eexists. split; [reflexivity|]. split; [exact Hk1|].
      split; [|exact Hsel]. split; [reflexivity|].
      eexists. unfold Bot.logged, logs_of in *. simpl. by rewrite Hl1.
    + eexists. split; [reflexivity|]. split; [exact Hk1|].
      split; [reflexivity|exact Hsel].
  - exists w1. split; [reflexivity|]. split; [exact Hk1|]. done.
Qed.

(** *** How rows evolve under the operations *)

Lemma row_step_owner r r' u :
  row_step r r' -> assigned_user_id r = Some u -> assigned_user_id r' = Some u.
Proof. intros [] Ho; simpl; congruence. Qed.

Lemma row_step_revoked r r' :
  row_step r r' -> status r = "revoked" -> status r' = "revoked".
Proof. intros [] Hs; simpl; congruence. Qed.

Lemma row_step_valid r r' :
  row_step r r' -> valid_status (status r) -> valid_status (status r').
Proof. unfold valid_status. intros [] Hv; simpl; auto. Qed.

Lemma row_step_transition r r' :
  row_step r r' -> valid_status (status r) ->
  status r' = status r \/
  (status r = "new" /\ status r' = "claimed") \/
  ((status r = "new" \/ status r = "claimed") /\ status r' = "revoked").
Proof.
  unfold valid_status. intros Hstep Hv. destruct Hstep as [r|r u t Ho Hs|r]; simpl.
  - auto.
  - destruct Hv as [Hv|[Hv|Hv]]; [auto|left; congruence|done].
  - destruct Hv as [Hv|[Hv|Hv]]; [auto|auto|left; congruence].
Qed.

Lemma row_step_frame r r' :
  row_step r r' -> product_id r' = product_id r /\ created_at r' = created_at r.
Proof. intros []; auto. Qed.

Lemma keys_step_refl (k : gmap string KeyRow) : keys_step k k.
Proof. intros c r Hc. exists r. split; [done|constructor]. Qed.

Lemma keys_step_eq (k k' : gmap string KeyRow) : k' = k -> keys_step k k'.
Proof. intros ->. apply keys_step_refl. Qed.

Lemma keys_step_insert (k : gmap string KeyRow) code r r' :
  k !! code = Some r -> row_step r r' -> keys_step k (<[code := r']> k).
Proof.
  intros Hc Hstep c r0 Hc0. destruct (decide (c = code)) as [->|Hne].
  - rewrite lookup_insert_eq. exists r'. split; [done|]. congruence.
  - rewrite lookup_insert_ne by done. exists r0. split; [done|constructor].
Qed.

Lemma keys_step_trans (k1 k2 k3 : gmap string KeyRow) :
  keys_step k1 k2 -> keys_step k2 k3 ->
  forall c r, k1 !! c = Some r ->
    exists r2 r3, k2 !! c = Some r2 /\ k3 !! c = Some r3 /\ row_step r r2 /\ row_step r2 r3.
Proof.
  intros H12 H23 c r Hc. destruct (H12 c r Hc) as (r2 & Hc2 & Hs2).
  destruct (H23 c r2 Hc2) as (r3 & Hc3 & Hs3). eauto 10.
Qed.

Lemma claim_keys_step code user_id w b w' :
  claim_key_for_user code user_id w = Ok b w' -> keys_step (keys_of w) (keys_of w').
Proof.
  rewrite claim_key_for_user_eq.
  destruct (keys_of w !! code) as [r|] eqn:E.
  - destruct (String.eqb_spec (status r) "revoked") as [Hs|Hs].
    + intros [= _ <-]. apply keys_step_refl.
    + destruct (assigned_user_id r) eqn:Eo.
      * intros [= _ <-]. apply keys_step_refl.
      * intros [= _ <-]. unfold keys_of at 2; simpl.
        eapply keys_step_insert; [done|]. by constructor.
  - intros [= _ <-]. apply keys_step_refl.
Qed.

Lemma revoke_keys_step code w b w' :
  revoke_key code w = Ok b w' -> keys_step (keys_of w) (keys_of w').
Proof.
  rewrite revoke_key_eq. destruct (keys_of w !! code) as [r|] eqn:E.
  - intros [= _ <-]. unfold keys_of at 2; simpl.
    eapply keys_step_insert; [done|constructor].
  - intros [= _ <-]. apply keys_step_refl.
Qed.

Lemma create_keys_step gas amount product w w' :
  world_after (create_keys_batch gas amount product w) = Some w' ->
  keys_step (keys_of w) (keys_of w').
Proof.
  unfold Bot.create_keys_batch.
  pose proof (batch_loop_spec product (Z.to_nat amount) gas [] w) as Hspec.
  destruct (batch_loop (Z.to_nat amount) gas product [] w) as [cs w1| |]; [|done|done].
  intros [= <-]. destruct Hspec as (new & _ & _ & _ & Hnew & Hold & _).
  intros c r Hc. exists r. split; [|constructor].
  rewrite Hold; [done|]. intros Hin. destruct (Hnew c Hin) as (Hnone & _). congruence.
Qed.

Lemma cmd_start_keys_step user_id uname code issued w w' :
  world_after (cmd_start user_id uname code issued w) = Some w' ->
  keys_step (keys_of w) (keys_of w').
Proof.
  destruct (upsert_user_keys user_id uname w) as (w1 & Hup & Hk1 & _).
  destruct (String.eqb_spec code "") as [->|Hne].
  - unfold Bot.cmd_start, bind. rewrite Hup. simpl.
    intros [= <-]. by apply keys_step_eq.
  - rewrite (cmd_start_eq _ _ _ issued _ _ Hne Hup). cbv zeta. rewrite Hk1.
    destruct (keys_of w !! code) as [r|] eqn:E.
    + destruct (String.eqb_spec (status r) "revoked") as [Hs|Hs].
      * intros [= <-]. by apply keys_step_eq.
      * destruct (assigned_user_id r) as [o|] eqn:Eo.
        -- destruct (Z.eqb o user_id).
           ++ unfold Bot.start_granted.
              destruct issued; intros [= <-]; by apply keys_step_eq.
           ++ intros [= <-]. by apply keys_step_eq.
        -- unfold Bot.start_granted.
           destruct issued; intros [= <-]; unfold keys_of at 2; simpl;
             (eapply keys_step_insert; [done|by constructor]).
    + intros [= <-]. by apply keys_step_eq.
Qed.

Lemma cmd_access_keys user_id uname issued w :
  exists w', world_after (cmd_access user_id uname issued w) = Some w' /\
             keys_of w' = keys_of w.
Proof.
  destruct (upsert_user_keys user_id uname w) as (w1 & Hup & Hk1 & _).
  rewrite (cmd_access_eq _ _ issued _ _ Hup).
  destruct (select_latest_claim user_id (keys_of w1)); [destruct issued|]; eauto.
Qed.

Lemma exec_op_keys_step o w w' :
  exec_op o w = Some w' -> keys_step (keys_of w) (keys_of w').
Proof.
  destruct o as [code u|code|gas amount product|u uname code issued|u uname issued];
    unfold Bot.exec_op.
  - destruct (claim_key_for_user code u w) as [b w1| |] eqn:E; try done.
    + intros [= <-]. eapply claim_keys_step, E.
    + rewrite claim_key_for_user_eq in E.
      destruct (keys_of w !! code) as [r|]; [|done].
      destruct (String.eqb (status r) "revoked"); [done|].
      destruct (assigned_user_id r); done.
  - destruct (revoke_key code w) as [b w1| |] eqn:E; try done.
    + intros [= <-]. eapply revoke_keys_step, E.
    + rewrite revoke_key_eq in E. destruct (keys_of w !! code); done.
  - apply create_keys_step.
  - apply cmd_start_keys_step.
  - destruct (cmd_access_keys u uname issued w) as (w1 & -> & Hk).
    intros [= <-]. by apply keys_step_eq.
Qed.

Lemma exec_ops_row os :
  forall w w' c r,
    exec_ops os w = Some w' ->
    keys_of w !! c = Some r ->
    exists r', keys_of w' !! c = Some r' /\
               (forall u, assigned_user_id r = Some u -> assigned_user_id r' = Some u) /\
               (status r = "revoked" -> status r' = "revoked").
Proof.
  induction os as [|o os IH]; intros w w' c r Hrun Hc.
  - injection Hrun as <-. eauto.
  - cbn [Bot.exec_ops] in Hrun.
    destruct (exec_op o w) as [w1|] eqn:E; [|done].
    destruct (exec_op_keys_step _ _ _ E c r Hc) as (r1 & Hc1 & Hstep).
    destruct (IH _ _ _ _ Hrun Hc1) as (r' & Hc' & Ho & Hs).
    exists r'. split; [done|]. split.
    + intros u Hu. apply Ho. eapply row_step_owner; eauto.
    + intros Hr. apply Hs. eapply row_step_revoked; eauto.
Qed.

Lemma claim_on_owned code user_id w r u :
  keys_of w !! code = Some r ->
  assigned_user_id r = Some u ->
  exists b, claim_key_for_user code user_id w = Ok b w /\
            (b = true <-> status r <> "revoked" /\ u = user_id).
Proof.
  intros Hc Ho. rewrite claim_key_for_user_eq, Hc, Ho.
  destruct (String.eqb_spec (status r) "revoked") as [Hs|Hs].
  - exists false. split; [done|]. split; [done|]. intros [? _]. done.
  - exists (Z.eqb u user_id). split; [done|]. rewrite Z.eqb_eq. tauto.
Qed.

Lemma claim_on_revoked code user_id w r :
  keys_of w !! code = Some r -> status r = "revoked" ->
  claim_key_for_user code user_id w = Ok false w.
Proof.
  intros Hc Hs. rewrite claim_key_for_user_eq, Hc, Hs. reflexivity.
Qed.

(** *** Ownership *)

(** With operations run one after another, each to its end: an owner once
    recorded for a code stays recorded, unchanged, through any sequence of
    claims, revocations, batch generations and /start and /access requests;
    and a claim on such a code only compares: it answers yes exactly when the
    code is not revoked and the requester is that owner, and changes
    nothing. *)
Theorem owner_set_once (os : list Op) (w w' : World) (c : string) (r : KeyRow)
    (u user_id : Z) :
  exec_ops os w = Some w' ->
  keys_of w !! c = Some r ->
  assigned_user_id r = Some u ->
  exists r',
    keys_of w' !! c = Some r' /\
    assigned_user_id r' = Some u /\
    exists b, claim_key_for_user c user_id w' = Ok b w' /\
              (b = true <-> status r' <> "revoked" /\ u = user_id).
Proof.
  intros Hrun Hc Ho.
  destruct (exec_ops_row _ _ _ _ _ Hrun Hc) as (r' & Hc' & Ho' & _).
  exists r'. split; [done|]. split; [auto|].
  eapply claim_on_owned; eauto.
Qed.

(** *** Revocation is final *)

Lemma cmd_start_on_revoked user_id uname code issued w r :
  keys_of w !! code = Some r -> status r = "revoked" ->
  exists reply w',
    cmd_start user_id uname code issued w = Ok reply w' /\
    keys_of w' = keys_of w /\
    reply = (if String.eqb code "" then ReplyGreeting else ReplyKeyRevoked).
Proof.
  intros Hc Hs.
  destruct (upsert_user_keys user_id uname w) as (w1 & Hup & Hk1 & _).
  destruct (String.eqb_spec code "") as [->|Hne].
  - unfold Bot.cmd_start, bind. rewrite Hup. simpl. eauto.
  - rewrite (cmd_start_eq _ _ _ issued _ _ Hne Hup). cbv zeta.
    rewrite Hk1, Hc, Hs. simpl. eauto.
Qed.

(** With operations run one after another, each to its end: after
    [revoke_key code] has succeeded, and whatever operations follow, the row
    is still [revoked]; [claim_key_for_user] refuses every identity and
    changes nothing, and [cmd_start] answers "revoked" (the greeting for the
    empty code), never an invitation; and no single operation changes a
    status except from [new] to [claimed] or from [new] or [claimed] to
    [revoked]. *)
Theorem revocation_terminal (code : string) (w w1 w2 : World) (os : list Op)
    (user_id : Z) (uname issued : option string) :
  revoke_key code w = Ok true w1 ->
  exec_ops os w1 = Some w2 ->
  (exists r, keys_of w2 !! code = Some r /\ status r = "revoked") /\
  claim_key_for_user code user_id w2 = Ok false w2 /\
  (exists reply w3,
     cmd_start user_id uname code issued w2 = Ok reply w3 /\
     keys_of w3 = keys_of w2 /\
     reply = (if String.eqb code "" then ReplyGreeting else ReplyKeyRevoked)) /\
  (forall o wa wb c r,
     exec_op o wa = Some wb ->
     keys_of wa !! c = Some r ->
     valid_status (status r) ->
     exists r', keys_of wb !! c = Some r' /\
                (status r' = status r \/
                 (status r = "new" /\ status r' = "claimed") \/
                 ((status r = "new" \/ status r = "claimed") /\ status r' = "revoked"))).
Proof.
  intros Hrev Hrun.
  assert (exists r1, keys_of w1 !! code = Some r1 /\ status r1 = "revoked") as (r1 & Hc1 & Hs1).
  { rewrite revoke_key_eq in Hrev. destruct (keys_of w !! code) as [r|]; [|done].
    injection Hrev as <-. exists (revoke_row r).
    unfold keys_of at 1; simpl. by rewrite lookup_insert_eq. }
  destruct (exec_ops_row _ _ _ _ _ Hrun Hc1) as (r2 & Hc2 & _ & Hs2).
  specialize (Hs2 Hs1).
  split; [eauto|]. split; [eapply claim_on_revoked; eauto|].
  split; [eapply cmd_start_on_revoked; eauto|].
  intros o wa wb c r Hop Hc Hv.
  destruct (exec_op_keys_step _ _ _ Hop c r Hc) as (r' & Hc' & Hstep).
  exists r'. split; [done|]. by apply row_step_transition.
Qed.

(** *** The audit trail of /start *)

(** C6 (as the code has it): every [cmd_start] with a non-empty code appends
    an [attempt] entry; a rejection then appends exactly one [rejected] entry
    whose reason names the outcome ([code_not_found], [code_revoked],
    [owned_by_another]); a grant appends no [granted] entry: once the link is
    issued it appends one [invite_created] entry with reason [start_flow],
    and nothing more when the call for the link fails.  Entries already in
    the log are kept. *)
Theorem cmd_start_audit (user_id : Z) (uname : option string) (code : string)
    (issued : option string) (w : World) :
  code <> "" ->
  exists w' new,
    world_after (cmd_start user_id uname code issued w) = Some w' /\
    logs_of w' = logs_of w ++ new /\
    map log_event new =
    (Some user_id, Some code, "attempt", "start_param") ::
    match cmd_start user_id uname code issued w with
    | Ok ReplyCodeNotFound _ => [(Some user_id, Some code, "rejected", "code_not_found")]
    | Ok ReplyKeyRevoked _ => [(Some user_id, Some code, "rejected", "code_revoked")]
    | Ok ReplyOwnedByAnother _ => [(Some user_id, Some code, "rejected", "owned_by_another")]
    | Ok (ReplyKeyConfirmed _ _) _ => [(Some user_id, Some code, "invite_created", "start_flow")]
    | _ => []
    end.
Proof.
  intros Hne.
  destruct (upsert_user_keys user_id uname w) as (w1 & Hup & _ & Hl1 & _).
  rewrite (cmd_start_eq _ _ _ issued _ _ Hne Hup), <- Hl1. cbv zeta.
  assert (Hlog : forall u c a r w0, logs_of (logged u c a r w0) =
                   logs_of w0 ++ [mkLog u c a r (clock (ticks w0))]) by reflexivity.
  assert (Htick : forall w0, logs_of (tick w0) = logs_of w0) by reflexivity.
  assert (Hset : forall k w0, logs_of (set_keys k w0) = logs_of w0) by reflexivity.
  destruct (keys_of w1 !! code) as [r|].
  - destruct (String.eqb (status r) "revoked").
    + eexists _, [_; _]. split; [reflexivity|].
      rewrite !Hlog, <- app_assoc. split; reflexivity.
    + destruct (assigned_user_id r) as [o|]; [destruct (Z.eqb o user_id)|].
      * unfold Bot.start_granted. destruct issued.
        -- eexists _, [_; _]. split; [reflexivity|].
           rewrite !Hlog, Htick, Hlog, <- app_assoc. split; reflexivity.
        -- eexists _, [_]. split; [reflexivity|].
           rewrite Htick, Hlog. split; reflexivity.
      * eexists _, [_; _]. split; [reflexivity|].
        rewrite !Hlog, <- app_assoc. split; reflexivity.
      * unfold Bot.start_granted. destruct issued.
        -- eexists _, [_; _]. split; [reflexivity|].
           rewrite !Hlog, Htick, Hset, Htick, Hlog, <- app_assoc. split; reflexivity.
        -- eexists _, [_]. split; [reflexivity|].
           rewrite Htick, Hset, Htick, Hlog. split; reflexivity.
  - eexists _, [_; _]. split; [reflexivity|].
    rewrite !Hlog, <- app_assoc. split; reflexivity.
Qed.

(** *** Interleaved claims *)

Lemma claim_task_select code user_id w :
  claim_task_step clock (BeforeSelect code user_id) w =
  match keys_of w !! code with
  | None => Ok (Returned false) w
  | Some r =>
      if String.eqb (status r) "revoked" then Ok (Returned false) w
      else match assigned_user_id r with
           | None => Ok (BeforeUpdate code user_id (clock (ticks w))) (tick w)
           | Some o => Ok (Returned (Z.eqb o user_id)) w
           end
  end.
Proof.
  unfold claim_task_step, bind, select_status_owner.
  destruct (keys_of w !! code) as [r|]; simpl; [|reflexivity].
  destruct (String.eqb (status r) "revoked"); [reflexivity|].
  destruct (assigned_user_id r); reflexivity.
Qed.

Lemma claim_task_update code user_id t w :
  claim_task_step clock (BeforeUpdate code user_id t) w =
  match keys_of w !! code with
  | Some r => Ok (Returned true) (set_keys (<[code := claim_row user_id t r]> (keys_of w)) w)
  | None => Ok (Returned true) w
  end.
Proof.
  unfold claim_task_step, bind, update_claim.
  destruct (keys_of w !! code); reflexivity.
Qed.

Lemma run_schedule_cons i rest tasks w :
  run_schedule clock (i :: rest) tasks w =
  match tasks !! i with
  | None => run_schedule clock rest tasks w
  | Some tk =>
      match claim_task_step clock tk w with
      | Ok tk' w' => run_schedule clock rest (<[i := tk']> tasks) w'
      | Raise e w' => Raise e w'
      | Diverge => Diverge
      end
  end.
Proof. cbn [Bot.run_schedule]. destruct (tasks !! i); reflexivity. Qed.

(** A request that runs both its steps with nothing in between is
    [claim_key_for_user]. *)
Lemma claim_task_alone code user_id w :
  run_schedule clock [0; 0]%nat [BeforeSelect code user_id] w =
  match claim_key_for_user code user_id w with
  | Ok b w' => Ok [Returned b] w'
  | Raise e w' => Raise e w'
  | Diverge => Diverge
  end.
Proof.
  rewrite claim_key_for_user_eq, run_schedule_cons.
  cbn [lookup list_lookup]. rewrite claim_task_select.
  destruct (keys_of w !! code) as [r|] eqn:E.
  - destruct (String.eqb (status r) "revoked"); [reflexivity|].
    destruct (assigned_user_id r); [reflexivity|].
    cbn [insert list_insert]. rewrite run_schedule_cons.
    cbn [lookup list_lookup]. rewrite claim_task_update.
    change (keys_of (tick w)) with (keys_of w). rewrite E. reflexivity.
  - reflexivity.
Qed.

End Properties.

(** ** Further properties of the handlers and the tables *)

Section More.

Variable clock : nat -> string.
Variable entropy : nat -> nat.
Variable ADMINS : gset Z.
Variable int : string -> option Z.

#[local] Abbreviation claim_key_for_user := (claim_key_for_user clock).
#[local] Abbreviation upsert_user := (upsert_user clock).
#[local] Abbreviation logged := (logged clock).
#[local] Abbreviation start_granted := (start_granted clock).
#[local] Abbreviation cmd_start := (cmd_start clock).
#[local] Abbreviation cmd_access := (cmd_access clock).
#[local] Abbreviation create_keys_batch := (create_keys_batch clock entropy).
#[local] Abbreviation batch_loop := (batch_loop clock entropy).
#[local] Abbreviation exec_op := (exec_op clock entropy).
#[local] Abbreviation exec_ops := (exec_ops clock entropy).
#[local] Abbreviation exec_event := (exec_event clock entropy).
#[local] Abbreviation exec_events := (exec_events clock entropy).
#[local] Abbreviation claim_task_step := (claim_task_step clock).
#[local] Abbreviation run_schedule := (run_schedule clock).
#[local] Abbreviation is_admin := (is_admin ADMINS).
#[local] Abbreviation cmd_gen := (cmd_gen clock entropy ADMINS int).
#[local] Abbreviation gen_amount := (gen_amount int).
#[local] Abbreviation cmd_revoke := (cmd_revoke ADMINS).
#[local] Abbreviation cmd_who := (cmd_who ADMINS).
#[local] Abbreviation cmd_logs := (cmd_logs ADMINS int).
#[local] Abbreviation logs_limit := (logs_limit int).

(** *** What [upsert_user] does to the users table *)

Lemma upsert_user_users user_id uname w :
  exists w',
    upsert_user user_id uname w = Ok tt w' /\
    keys_of w' = keys_of w /\ logs_of w' = logs_of w /\
    users (db w') !! user_id =
      Some (mkUser uname (match users (db w) !! user_id with
                          | Some u => first_seen u
                          | None => clock (ticks w)
                          end)) /\
    forall other, other <> user_id -> users (db w') !! other = users (db w) !! other.
Proof.
  unfold Bot.upsert_user. destruct (users (db w) !! user_id) as [u|] eqn:E.
  - eexists. split; [reflexivity|]. simpl. split; [done|]. split; [done|].
    split; [by rewrite lookup_insert_eq|].
    intros other Hne. by rewrite lookup_insert_ne.
  - eexists. split; [reflexivity|]. simpl. split; [done|]. split; [done|].
    split; [by rewrite lookup_insert_eq|].
    intros other Hne. by rewrite lookup_insert_ne.
Qed.

Lemma upsert_user_first_seen user_id uname w w1 :
  upsert_user user_id uname w = Ok tt w1 ->
  forall uid u, users (db w) !! uid = Some u ->
    exists u', users (db w1) !! uid = Some u' /\ first_seen u' = first_seen u.
Proof.
  intros Hup uid u Hu.
  destruct (upsert_user_users user_id uname w) as (w' & Hup' & _ & _ & Hme & Hother).
  rewrite Hup in Hup'. injection Hup' as <-.
  destruct (decide (uid = user_id)) as [->|Hne].
  - rewrite Hme, Hu. eauto.
  - rewrite Hother by done. eauto.
Qed.

(** *** The log only grows, users are only added *)

Lemma log_extends_refl w : log_extends w w.
Proof. split; [done|]. exists []. by rewrite app_nil_r. Qed.

Lemma log_extends_tick w w' : log_extends w w' -> log_extends w (tick w').
Proof. intros H. exact H. Qed.

Lemma log_extends_set_keys k w w' : log_extends w w' -> log_extends w (set_keys k w').
Proof. intros H. exact H. Qed.

Lemma log_extends_logged u c a r w w' :
  log_extends w w' -> log_extends w (logged u c a r w').
Proof.
  intros [Hu (new & Hl)]. split; [exact Hu|].
  exists (new ++ [mkLog u c a r (clock (ticks w'))]).
  unfold Bot.logged, logs_of in *. simpl. by rewrite Hl, app_assoc.
Qed.

Ltac log_extends_tac :=
  repeat match goal with
         | |- log_extends _ (Bot.logged _ _ _ _ _ _) => apply log_extends_logged
         | |- log_extends _ (tick _) => apply log_extends_tick
         | |- log_extends _ (set_keys _ _) => apply log_extends_set_keys
         | |- log_extends ?w ?w => apply log_extends_refl
         end.

Lemma cmd_start_log_extends user_id uname code issued w w1 w' :
  upsert_user user_id uname w = Ok tt w1 ->
  world_after (cmd_start user_id uname code issued w) = Some w' ->
  log_extends w1 w'.
Proof.
  intros Hup. destruct (String.eqb_spec code "") as [->|Hne].
  - unfold Bot.cmd_start, bind. rewrite Hup. simpl. intros [= <-]. log_extends_tac.
  - rewrite (cmd_start_eq clock _ _ _ issued _ _ Hne Hup). cbv zeta.
    destruct (keys_of w1 !! code) as [r|].
    + destruct (String.eqb (status r) "revoked"); [intros [= <-]; log_extends_tac|].
      destruct (assigned_user_id r) as [o|]; [destruct (Z.eqb o user_id)|];
        unfold Bot.start_granted; try destruct issued; intros [= <-]; log_extends_tac.
    + intros [= <-]. log_extends_tac.
Qed.

Lemma cmd_access_log_extends user_id uname issued w w1 w' :
  upsert_user user_id uname w = Ok tt w1 ->
  world_after (cmd_access user_id uname issued w) = Some w' ->
  log_extends w1 w'.
Proof.
  intros Hup. rewrite (cmd_access_eq clock _ _ issued _ _ Hup).
  destruct (select_latest_claim user_id (keys_of w1)); [destruct issued|];
    intros [= <-]; log_extends_tac.
Qed.

Lemma exec_op_tables o w w' :
  exec_op o w = Some w' ->
  (exists new, logs_of w' = logs_of w ++ new) /\
  (forall uid u, users (db w) !! uid = Some u ->
     exists u', users (db w') !! uid = Some u' /\ first_seen u' = first_seen u).
Proof.
  assert (Hdirect : log_extends w w' ->
    (exists new, logs_of w' = logs_of w ++ new) /\
    (forall uid u, users (db w) !! uid = Some u ->
       exists u', users (db w') !! uid = Some u' /\ first_seen u' = first_seen u)).
  { intros [Hu Hl]. split; [exact Hl|]. intros uid u Hx. rewrite Hu. eauto. }
  assert (Hvia : forall user_id uname w1,
    upsert_user user_id uname w = Ok tt w1 -> log_extends w1 w' ->
    (exists new, logs_of w' = logs_of w ++ new) /\
    (forall uid u, users (db w) !! uid = Some u ->
       exists u', users (db w') !! uid = Some u' /\ first_seen u' = first_seen u)).
  { intros user_id uname w1 Hup [Hu (new & Hl)].
    destruct (upsert_user_users user_id uname w) as (w1' & Hup' & _ & Hl1 & _).
    rewrite Hup in Hup'. injection Hup' as <-.
    split; [exists new; by rewrite Hl, Hl1|].
    intros uid u Hx. rewrite Hu. eapply upsert_user_first_seen; eauto. }
  destruct o as [code u|code|gas amount product|u uname code issued|u uname issued];
    unfold Bot.exec_op; intros Hop.
  - apply Hdirect. revert Hop. rewrite claim_key_for_user_eq.
    destruct (keys_of w !! code) as [r|]; [|intros [= <-]; log_extends_tac].
    destruct (String.eqb (status r) "revoked"); [intros [= <-]; log_extends_tac|].
    destruct (assigned_user_id r); intros [= <-]; log_extends_tac.
  - apply Hdirect. revert Hop. rewrite revoke_key_eq.
    destruct (keys_of w !! code); intros [= <-]; log_extends_tac.
  - apply Hdirect. revert Hop. unfold Bot.create_keys_batch.
    pose proof (batch_loop_spec clock entropy product (Z.to_nat amount) gas [] w) as Hspec.
    destruct (batch_loop (Z.to_nat amount) gas product [] w) as [cs w1| |]; [|done|done].
    intros [= <-]. destruct Hspec as (new & _ & _ & _ & _ & _ & Hu & Hl).
    split; [exact Hu|]. exists []. by rewrite app_nil_r.
  - destruct (upsert_user_users u uname w) as (w1 & Hup & _).
    eapply Hvia; [exact Hup|]. eapply cmd_start_log_extends; eauto.
  - destruct (upsert_user_users u uname w) as (w1 & Hup & _).
    eapply Hvia; [exact Hup|]. eapply cmd_access_log_extends; eauto.
Qed.

(** X1: no operation removes or rewrites an audit entry: after any sequence
    of operations the log is the old log with entries added at its end. *)
Theorem audit_log_append_only (os : list Op) (w w' : World) :
  exec_ops os w = Some w' ->
  exists new, logs_of w' = logs_of w ++ new.
Proof.
  revert w. induction os as [|o os IH]; intros w Hrun.
  - injection Hrun as <-. exists []. by rewrite app_nil_r.
  - cbn [Bot.exec_ops] in Hrun. destruct (exec_op o w) as [w1|] eqn:E; [|done].
    destruct (exec_op_tables _ _ _ E) as [(new1 & H1) _].
    destruct (IH _ Hrun) as (new2 & H2).
    exists (new1 ++ new2). by rewrite H2, H1, app_assoc.
Qed.

(** X2: a user once seen stays in the users table and keeps the
    [first_seen] time of the first contact, whatever operations follow. *)
Theorem first_seen_kept (os : list Op) (w w' : World) (uid : Z) (u : UserRow) :
  exec_ops os w = Some w' ->
  users (db w) !! uid = Some u ->
  exists u', users (db w') !! uid = Some u' /\ first_seen u' = first_seen u.
Proof.
  revert w u. induction os as [|o os IH]; intros w u Hrun Hu.
  - injection Hrun as <-. eauto.
  - cbn [Bot.exec_ops] in Hrun. destruct (exec_op o w) as [w1|] eqn:E; [|done].
    destruct (exec_op_tables _ _ _ E) as [_ Husers].
    destruct (Husers uid u Hu) as (u1 & Hu1 & Hf1).
    destruct (IH _ _ Hrun Hu1) as (u' & Hu' & Hf'). exists u'. split; [done|]. congruence.
Qed.

(** *** Well-formed rows *)

Lemma row_step_ok r r' :
  row_ok r -> row_step r r' ->
  row_ok r' /\ forall t, claimed_at r = Some t -> claimed_at r' = Some t.
Proof.
  unfold row_ok. intros Hok Hstep. destruct Hstep as [r|r u t Ho Hs|r]; simpl.
  - auto.
  - split.
    + right; left. split; [done|]. split; eauto.
    + intros t0 Ht0. destruct Hok as [(_ & _ & Hc)|[(_ & [o Hx] & _)|(Hr & _)]]; congruence.
  - split; [|auto]. right; right. split; [done|].
    destruct Hok as [(_ & Ho & Hc)|[(_ & [o Ho] & [t Hc])|(_ & Hiff)]];
      [rewrite Ho, Hc; tauto | rewrite Ho, Hc; split; discriminate | exact Hiff].
Qed.

Lemma exec_op_new_rows o w w' c :
  exec_op o w = Some w' ->
  keys_of w !! c = None ->
  keys_of w' !! c = None \/
  exists p t, keys_of w' !! c = Some (mkKey p None "new" t None).
Proof.
  destruct o as [code u|code|gas amount product|u uname code issued|u uname issued];
    unfold Bot.exec_op; intros Hop Hc.
  - left. revert Hop. rewrite claim_key_for_user_eq.
    destruct (keys_of w !! code) as [r|] eqn:E; [|by intros [= <-]].
    destruct (String.eqb (status r) "revoked"); [by intros [= <-]|].
    destruct (assigned_user_id r); intros [= <-]; [done|].
    unfold keys_of at 1; simpl. rewrite lookup_insert_ne; [done|congruence].
  - left. revert Hop. rewrite revoke_key_eq.
    destruct (keys_of w !! code) as [r|] eqn:E; intros [= <-]; [|done].
    unfold keys_of at 1; simpl. rewrite lookup_insert_ne; [done|congruence].
  - revert Hop. unfold Bot.create_keys_batch.
    pose proof (batch_loop_spec clock entropy product (Z.to_nat amount) gas [] w) as Hspec.
    destruct (batch_loop (Z.to_nat amount) gas product [] w) as [cs w1| |]; [|done|done].
    intros [= <-]. destruct Hspec as (new & _ & _ & _ & Hnew & Hold & _).
    destruct (decide (c ∈ new)) as [Hin|Hnin].
    + right. destruct (Hnew c Hin) as (_ & _ & t & Ht). eauto.
    + left. by rewrite Hold.
  - left. destruct (upsert_user_keys clock u uname w) as (w1 & Hup & Hk1 & _).
    assert (Hc1 : keys_of w1 !! c = None) by (by rewrite Hk1).
    revert Hop. destruct (String.eqb_spec code "") as [->|Hne].
    + unfold Bot.cmd_start, bind. rewrite Hup. simpl. by intros [= <-].
    + rewrite (cmd_start_eq clock _ _ _ issued _ _ Hne Hup). cbv zeta.
      destruct (keys_of w1 !! code) as [r|] eqn:E.
      * destruct (String.eqb (status r) "revoked"); [intros [= <-]; exact Hc1|].
        destruct (assigned_user_id r) as [o|]; [destruct (Z.eqb o u)|];
          unfold Bot.start_granted; try destruct issued; intros [= <-];
          try exact Hc1.
        all: unfold keys_of at 1; simpl; rewrite lookup_insert_ne; [exact Hc1|congruence].
      * intros [= <-]. exact Hc1.
  - left. destruct (cmd_access_keys clock u uname issued w) as (w1 & Hw & Hk).
    rewrite Hw in Hop. injection Hop as <-. by rewrite Hk.
Qed.

Lemma exec_op_keys_ok o w w' :
  exec_op o w = Some w' -> keys_ok (keys_of w) -> keys_ok (keys_of w').
Proof.
  intros Hop Hok c r' Hc'.
  destruct (keys_of w !! c) as [r|] eqn:Hc.
  - destruct (exec_op_keys_step clock entropy _ _ _ Hop c r Hc) as (r1 & Hc1 & Hstep).
    assert (r1 = r') as -> by congruence.
    by apply (row_step_ok r r' (Hok c r Hc) Hstep).
  - destruct (exec_op_new_rows _ _ _ c Hop Hc) as [Hn|(p & t & Hn)]; [congruence|].
    assert (r' = mkKey p None "new" t None) as -> by congruence.
    left. done.
Qed.

(** X3: starting from a table whose rows are well formed (new and unowned,
    claimed with owner and claim time, or revoked), every sequence of
    operations leaves a table whose rows are well formed. *)
Theorem keys_stay_well_formed (os : list Op) (w w' : World) :
  keys_ok (keys_of w) ->
  exec_ops os w = Some w' ->
  keys_ok (keys_of w').
Proof.
  revert w. induction os as [|o os IH]; intros w Hok Hrun.
  - by injection Hrun as <-.
  - cbn [Bot.exec_ops] in Hrun. destruct (exec_op o w) as [w1|] eqn:E; [|done].
    eapply IH; [|exact Hrun]. eapply exec_op_keys_ok; eauto.
Qed.

(** *** Rows under operations and claims in flight *)

(** What every event keeps of a row. *)
Lemma exec_event_row e w w' c r :
  exec_event e w = Some w' ->
  keys_of w !! c = Some r ->
  exists r',
    keys_of w' !! c = Some r' /\
    product_id r' = product_id r /\ created_at r' = created_at r /\
    (pending_update_on c e = false -> status r = "revoked" -> status r' = "revoked").
Proof.
  destruct e as [o|tk]; cbn [Bot.exec_event pending_update_on]; intros He Hc.
  - destruct (exec_op_keys_step clock entropy _ _ _ He c r Hc) as (r' & Hc' & Hstep).
    destruct (row_step_frame _ _ Hstep) as [Hp Hcr].
    exists r'. split; [done|]. split; [done|]. split; [done|].
    intros _. by apply row_step_revoked.
  - destruct tk as [code u|code u t|b].
    + revert He. rewrite claim_task_select.
      destruct (keys_of w !! code) as [r0|]; [|intros [= <-]; eauto 10].
      destruct (String.eqb (status r0) "revoked"); [intros [= <-]; eauto 10|].
      destruct (assigned_user_id r0); intros [= <-]; eauto 10.
    + revert He. rewrite claim_task_update.
      destruct (keys_of w !! code) as [r0|] eqn:E; [|intros [= <-]; eauto 10].
      intros [= <-]. unfold keys_of at 1. simpl nfc_keys.
      destruct (String.eqb_spec code c) as [->|Hne].
      * rewrite lookup_insert_eq. assert (r0 = r) as -> by congruence.
        eexists. split; [reflexivity|]. split; [done|]. split; [done|]. discriminate.
      * rewrite lookup_insert_ne by done. eauto 10.
    + injection He as <-. eauto 10.
Qed.

(** X4: neither an operation nor a step of a claim in flight deletes a code
    or changes its product or its creation time: a row present before any
    sequence of them is present after it with the same [product_id] and
    [created_at]. *)
Theorem key_row_kept (es : list Event) (w w' : World) (c : string) (r : KeyRow) :
  exec_events es w = Some w' ->
  keys_of w !! c = Some r ->
  exists r',
    keys_of w' !! c = Some r' /\
    product_id r' = product_id r /\
    created_at r' = created_at r.
Proof.
  revert w r. induction es as [|e es IH]; intros w r Hrun Hc.
  - injection Hrun as <-. eauto.
  - cbn [Bot.exec_events] in Hrun. destruct (exec_event e w) as [w1|] eqn:E; [|done].
    destruct (exec_event_row _ _ _ _ _ E Hc) as (r1 & Hc1 & Hp1 & Hcr1 & _).
    destruct (IH _ _ Hrun Hc1) as (r' & Hc' & Hp & Hcr).
    exists r'. split; [done|]. split; congruence.
Qed.

Lemma exec_events_revoked es :
  forall w w' c r,
    existsb (pending_update_on c) es = false ->
    exec_events es w = Some w' ->
    keys_of w !! c = Some r -> status r = "revoked" ->
    exists r', keys_of w' !! c = Some r' /\ status r' = "revoked".
Proof.
  induction es as [|e es IH]; intros w w' c r Hno Hrun Hc Hs.
  - injection Hrun as <-. eauto.
  - cbn [existsb] in Hno. apply orb_false_elim in Hno as [Hno1 Hno2].
    cbn [Bot.exec_events] in Hrun. destruct (exec_event e w) as [w1|] eqn:E; [|done].
    destruct (exec_event_row _ _ _ _ _ E Hc) as (r1 & Hc1 & _ & _ & Hrev).
    eapply IH; eauto.
Qed.

(** *** Edge cases of /start *)

(** X5: [cmd_start] without a code only greets: it registers the user and
    writes no audit entry and nothing to the code store. *)
Theorem cmd_start_without_code (user_id : Z) (uname issued : option string) (w : World) :
  exists w',
    cmd_start user_id uname "" issued w = Ok ReplyGreeting w' /\
    keys_of w' = keys_of w /\
    logs_of w' = logs_of w /\
    username <$> users (db w') !! user_id = Some uname.
Proof.
  destruct (upsert_user_users user_id uname w) as (w1 & Hup & Hk & Hl & Hu & _).
  exists w1. unfold Bot.cmd_start, bind. rewrite Hup. simpl.
  split; [done|]. split; [done|]. split; [done|]. by rewrite Hu.
Qed.

Lemma select_latest_claim_some user_id (keys : gmap string KeyRow) c r :
  keys !! c = Some r -> assigned_user_id r = Some user_id -> status r = "claimed" ->
  exists c', select_latest_claim user_id keys = Some c'.
Proof.
  intros Hc Ho Hs. pose proof (select_latest_claim_spec user_id keys) as H.
  destruct (select_latest_claim user_id keys) as [c'|]; [eauto|].
  exfalso. eapply H; eauto.
Qed.

(** X6: when the platform call for the invite link fails after a first
    claim, the claim stays: the row is owned by the requester and
    [claimed], and a later [cmd_access] by that user is answered with a
    link, not with "not found". *)
Theorem claim_survives_issuer_failure (user_id : Z) (uname uname' : option string)
    (code link : string) (w : World) (r : KeyRow) :
  code <> "" ->
  keys_of w !! code = Some r ->
  status r <> "revoked" ->
  assigned_user_id r = None ->
  exists w',
    cmd_start user_id uname code None w = Raise TelegramAPIError w' /\
    (exists r', keys_of w' !! code = Some r' /\
                assigned_user_id r' = Some user_id /\ status r' = "claimed") /\
    exists w'', cmd_access user_id uname' (Some link) w' = Ok (ReplyAccessLink link) w''.
Proof.
  intros Hne Hc Hs Ho.
  destruct (upsert_user_keys clock user_id uname w) as (w1 & Hup & Hk1 & _).
  rewrite (cmd_start_eq clock _ _ _ None _ _ Hne Hup). cbv zeta.
  rewrite Hk1, Hc, Ho.
  destruct (String.eqb_spec (status r) "revoked") as [|_]; [done|].
  unfold Bot.start_granted. eexists. split; [reflexivity|].
  set (w' := tick (set_keys _ _)).
  assert (Hrow : keys_of w' !! code =
                 Some (claim_row user_id (clock (ticks (logged (Some user_id) (Some code)
                                            "attempt" "start_param" w1))) r)).
  { unfold w', keys_of at 1. simpl. by rewrite lookup_insert_eq. }
  split; [eexists; split; [exact Hrow|]; by split|].
  destruct (upsert_user_keys clock user_id uname' w') as (w2 & Hup2 & Hk2 & _).
  rewrite (cmd_access_eq clock _ _ (Some link) _ _ Hup2), Hk2.
  destruct (select_latest_claim_some user_id (keys_of w') code _ Hrow) as (c' & ->);
    [done|done|]. eauto.
Qed.

(** *** Interleaved claims, in general *)

(** X7: for every code that is unowned and not revoked and every two
    identities, when both requests read the row before either writes, both
    return [true] and the row ends up owned by the one that wrote last. *)
Theorem interleaved_claims_both_granted (code : string) (u1 u2 : Z) (w : World)
    (r : KeyRow) :
  keys_of w !! code = Some r ->
  status r <> "revoked" ->
  assigned_user_id r = None ->
  exists w',
    run_schedule [0; 1; 0; 1]%nat [BeforeSelect code u1; BeforeSelect code u2] w =
      Ok [Returned true; Returned true] w' /\
    assigned_user_id <$> keys_of w' !! code = Some (Some u2) /\
    status <$> keys_of w' !! code = Some "claimed".
Proof.
  intros Hc Hs Ho.
  assert (Hrev : String.eqb (status r) "revoked" = false) by by apply String.eqb_neq.
  rewrite run_schedule_cons. cbn [lookup list_lookup].
  rewrite claim_task_select, Hc, Hrev, Ho. cbn [insert list_insert].
  rewrite run_schedule_cons. cbn [lookup list_lookup].
  rewrite claim_task_select. change (keys_of (tick w)) with (keys_of w).
  rewrite Hc, Hrev, Ho. cbn [insert list_insert].
  rewrite run_schedule_cons. cbn [lookup list_lookup].
  rewrite claim_task_update. change (keys_of (tick (tick w))) with (keys_of w).
  rewrite Hc. cbn [insert list_insert].
  rewrite run_schedule_cons. cbn [lookup list_lookup].
  rewrite claim_task_update. unfold keys_of at 1. simpl nfc_keys.
  rewrite lookup_insert_eq. cbn [insert list_insert Bot.run_schedule].
  eexists. split; [reflexivity|].
  assert (Hks : forall k w0, keys_of (set_keys k w0) = k) by reflexivity.
  rewrite (Hks _ (set_keys _ _)), lookup_insert_eq. done.
Qed.

(** *** Administrator commands *)

(** X8: for an identity that is not an administrator, [cmd_gen],
    [cmd_revoke], [cmd_who] and [cmd_logs] answer "administrators only" and
    leave the database, the clock and the random source untouched. *)
Theorem admin_commands_gated (user_id : Z) (gas : nat) (args : list string)
    (me : option string) (code arg : string) (w : World) :
  user_id ∉ ADMINS ->
  cmd_gen gas user_id args me w = Ok AdminOnly w /\
  cmd_revoke user_id code w = Ok AdminOnly w /\
  cmd_who user_id code w = Ok AdminOnly w /\
  cmd_logs user_id arg w = Ok (Some AdminOnly) w.
Proof.
  intros Hna.
  assert (Hf : is_admin user_id = false) by (by apply bool_decide_eq_false).
  unfold Bot.cmd_gen, Bot.cmd_revoke, Bot.cmd_who, Bot.cmd_logs. rewrite Hf. done.
Qed.

(** X9: [cmd_revoke] by an administrator with a code answers "not found",
    changing nothing, when the code has no row, and "ok" otherwise, the
    row's status now [revoked].  After "ok", whatever operations and steps
    of claims in flight follow, as long as none of them is the pending
    UPDATE of a claim on that code (one that read the row before it was
    revoked), [cmd_start] for the code, by anyone, is answered "revoked" and
    leaves the code store as it is. *)
Theorem cmd_revoke_then_start (admin user_id : Z) (uname issued : option string)
    (code : string) (w : World) :
  admin ∈ ADMINS ->
  code <> "" ->
  match keys_of w !! code with
  | None => cmd_revoke admin code w = Ok RevokeNotFound w
  | Some r =>
      exists w1,
        cmd_revoke admin code w = Ok RevokeOk w1 /\
        keys_of w1 = <[code := revoke_row r]> (keys_of w) /\
        forall es w2,
          existsb (pending_update_on code) es = false ->
          exec_events es w1 = Some w2 ->
          exists w3,
            cmd_start user_id uname code issued w2 = Ok ReplyKeyRevoked w3 /\
            keys_of w3 = keys_of w2
  end.
Proof.
  intros Ha Hne.
  assert (Ht : is_admin admin = true) by (by apply bool_decide_eq_true).
  assert (Heq : cmd_revoke admin code w =
                match keys_of w !! code with
                | None => Ok RevokeNotFound w
                | Some r => Ok RevokeOk (set_keys (<[code := revoke_row r]> (keys_of w)) w)
                end).
  { unfold Bot.cmd_revoke. rewrite Ht. cbn [negb].
    destruct (String.eqb_spec code "") as [|_]; [done|].
    unfold bind. rewrite revoke_key_eq. destruct (keys_of w !! code); reflexivity. }
  rewrite Heq. destruct (keys_of w !! code) as [r|] eqn:E; [|reflexivity].
  eexists. split; [reflexivity|]. split; [reflexivity|].
  intros es w2 Hno Hrun.
  set (w1 := set_keys _ w) in *.
  assert (Hrow : keys_of w1 !! code = Some (revoke_row r)).
  { unfold w1, keys_of at 1. simpl. by rewrite lookup_insert_eq. }
  destruct (exec_events_revoked es _ _ _ _ Hno Hrun Hrow) as (r2 & Hc2 & Hs2); [done|].
  destruct (cmd_start_on_revoked clock user_id uname code issued w2 _ Hc2 Hs2)
    as (reply & w3 & Hs & Hk & Hr).
  destruct (String.eqb_spec code "") as [|_]; [done|]. subst reply. eauto.
Qed.

(** X10: [cmd_who] and [cmd_logs] only read: whoever asks and whatever the
    argument, the world afterwards is the world before (also when the
    database driver refuses an oversized limit of [cmd_logs]). *)
Theorem who_and_logs_read_only (user_id : Z) (code arg : string) (w : World) :
  (exists reply, cmd_who user_id code w = Ok reply w) /\
  (exists reply, cmd_logs user_id arg w = Ok reply w).
Proof.
  unfold Bot.cmd_who, Bot.cmd_logs, bind, get_key. split.
  - destruct (negb (is_admin user_id)); [eauto|].
    destruct (String.eqb code ""); [eauto|].
    destruct (keys_of w !! code); eauto.
  - destruct (negb (is_admin user_id)); [eauto|]. cbv zeta.
    destruct (_ || _); [eauto|].
    destruct (select_recent_logs (logs_limit arg) (logs_of w)); eauto.
Qed.



Lemma cmd_gen_eq gas admin args me w :
  admin ∈ ADMINS ->
  cmd_gen gas admin args me w =
  match gen_amount args with
  | None => Ok GenFormat w
  | Some amount =>
      match create_keys_batch gas amount (gen_product args) w with
      | Ok codes w' =>
          match me with
          | Some _ => Ok (GenCreated codes) w'
          | None => Raise TelegramAPIError w'
          end
      | Raise e w' => Raise e w'
      | Diverge => Diverge
      end
  end.
Proof.
  intros Ha.
  assert (Ht : is_admin admin = true) by (by apply bool_decide_eq_true).
  unfold Bot.cmd_gen. rewrite Ht. cbn [negb].
  destruct (gen_amount args) as [amount|]; [|reflexivity].
  unfold bind at 1.
  destruct (create_keys_batch gas amount (gen_product args) w); try reflexivity.
  destruct me; reflexivity.
Qed.

(** X12: [cmd_gen] by an administrator whose first argument is not a number
    answers with the format hint and changes nothing; with a count of zero
    or less it answers with an empty list and changes nothing either, not
    even the random source. *)
Theorem cmd_gen_edge_cases (gas : nat) (admin : Z) (args : list string)
    (name : string) (w : World) :
  admin ∈ ADMINS ->
  match gen_amount args with
  | None => forall me, cmd_gen gas admin args me w = Ok GenFormat w
  | Some amount =>
      amount <= 0 -> cmd_gen gas admin args (Some name) w = Ok (GenCreated []) w
  end.
Proof.
  intros Ha. destruct (gen_amount args) as [amount|] eqn:E.
  - intros Hle. rewrite cmd_gen_eq, E by done.
    unfold Bot.create_keys_batch. replace (Z.to_nat amount) with O by lia. reflexivity.
  - intros me. by rewrite cmd_gen_eq, E.
Qed.


End More.

(** ** The properties at work on the sample data *)

(** C1 (the code at the failing schedule): two requests for one unowned code
    whose SELECTs both run before either UPDATE both return [true]; the
    first UPDATE records identity 1, the second replaces it by identity 2.
    Run one after the other, the second request is refused and identity 1
    stays. *)
Theorem claim_race_two_owners :
  (exists w3,
     run_schedule Sample.clock [0; 1; 0]%nat Sample.two_requests Sample.w0 =
       Ok [Returned true; BeforeUpdate Sample.tag 2 (Sample.clock 1)] w3 /\
     assigned_user_id <$> keys_of w3 !! Sample.tag = Some (Some 1)) /\
  (exists w4,
     run_schedule Sample.clock [0; 1; 0; 1]%nat Sample.two_requests Sample.w0 =
       Ok [Returned true; Returned true] w4 /\
     assigned_user_id <$> keys_of w4 !! Sample.tag = Some (Some 2)) /\
  (exists w4,
     run_schedule Sample.clock [0; 0; 1; 1]%nat Sample.two_requests Sample.w0 =
       Ok [Returned true; Returned false] w4 /\
     assigned_user_id <$> keys_of w4 !! Sample.tag = Some (Some 1)).
Proof.
  split; [|split]; eexists; (split; [vm_compute; reflexivity|vm_compute; reflexivity]).
Qed.

(** C2 (the code at the failing schedule): identity 1 is recorded as owner of
    the tag while the request of identity 2, which read the row unowned, is
    still to write; that UPDATE then replaces owner 1 and its claim time by
    identity 2 and returns [true], and identity 1 is refused from then on. *)
Theorem recorded_owner_overwritten :
  exists w3 w4,
    run_schedule Sample.clock [0; 1; 0]%nat Sample.two_requests Sample.w0 =
      Ok [Returned true; BeforeUpdate Sample.tag 2 (Sample.clock 1)] w3 /\
    keys_of w3 !! Sample.tag = Some (claim_row 1 (Sample.clock 0) Sample.fresh_row) /\
    claim_task_step Sample.clock (BeforeUpdate Sample.tag 2 (Sample.clock 1)) w3 =
      Ok (Returned true) w4 /\
    keys_of w4 !! Sample.tag = Some (claim_row 2 (Sample.clock 1) Sample.fresh_row) /\
    claim_key_for_user Sample.clock Sample.tag 1 w4 = Ok false w4.
Proof.
  eexists _, _.
  split; [vm_compute; reflexivity|].
  split; [vm_compute; reflexivity|].
  split; [vm_compute; reflexivity|].
  split; vm_compute; reflexivity.
Qed.

(** C5 (the code at the failing schedule): a claim by identity 1 reads the
    tag unowned; [revoke_key] then succeeds and the row is [revoked]; the
    pending UPDATE of the claim writes [claimed] over it and returns [true];
    a /start and an /access that come after are both answered with a link. *)
Theorem revoked_row_claimed_again :
  exists wa wb wc wd we,
    claim_task_step Sample.clock (BeforeSelect Sample.tag 1) Sample.w0 =
      Ok (BeforeUpdate Sample.tag 1 (Sample.clock 0)) wa /\
    revoke_key Sample.tag wa = Ok true wb /\
    status <$> keys_of wb !! Sample.tag = Some "revoked" /\
    claim_task_step Sample.clock (BeforeUpdate Sample.tag 1 (Sample.clock 0)) wb =
      Ok (Returned true) wc /\
    status <$> keys_of wc !! Sample.tag = Some "claimed" /\
    cmd_start Sample.clock 1 None Sample.tag (Some Sample.link) wc =
      Ok (ReplyKeyConfirmed None Sample.link) wd /\
    cmd_access Sample.clock 1 None (Some Sample.link) wd =
      Ok (ReplyAccessLink Sample.link) we.
Proof.
  eexists _, _, _, _, _.
  split; [vm_compute; reflexivity|].
  split; [vm_compute; reflexivity|].
  split; [vm_compute; reflexivity|].
  split; [vm_compute; reflexivity|].
  split; [vm_compute; reflexivity|].
  split; vm_compute; reflexivity.
Qed.

(** C6 as stated fails: a first claim is granted and the log holds no entry
    whose action is [granted] or [rejected]. *)
Lemma cmd_start_grant_not_logged_as_granted :
  exists p w',
    cmd_start Sample.clock 1 None Sample.tag (Some Sample.link) Sample.w0 =
      Ok (ReplyKeyConfirmed p Sample.link) w' /\
    ~ exists e, e ∈ logs_of w' /\ (action e = "granted" \/ action e = "rejected").
Proof.
  eexists _, _. split; [vm_compute; reflexivity|].
  intros (e & Hin & Ha). vm_compute in Hin.
  apply elem_of_cons in Hin as [->|Hin]; [destruct Ha; discriminate|].
  apply elem_of_cons in Hin as [->|Hin]; [destruct Ha; discriminate|].
  by apply not_elem_of_nil in Hin.
Qed.

Lemma reclaim_idempotent_witness :
  claim_key_for_user Sample.clock Sample.tag 1 Sample.w0 = Ok true Sample.w1 /\
  claim_repeatedly Sample.clock 3 Sample.tag 1 Sample.w1 = Ok [true; true; true] Sample.w1.
Proof.
  assert (H : claim_key_for_user Sample.clock Sample.tag 1 Sample.w0 = Ok true Sample.w1)
    by (vm_compute; reflexivity).
  split; [exact H|].
  exact (reclaim_idempotent Sample.clock Sample.tag 1 Sample.w0 Sample.w1 3 H).
Defined.

Lemma cmd_start_decision_witness :
  Sample.tag <> "" /\
  exists n w',
    (ticks Sample.w0 <= n < ticks w')%nat /\
    keys_of w' = {[ Sample.tag := claim_row 1 (Sample.clock n) Sample.fresh_row ]} /\
    cmd_start Sample.clock 1 None Sample.tag (Some Sample.link) Sample.w0 =
      Ok (ReplyKeyConfirmed None Sample.link) w'.
Proof.
  assert (Hne : Sample.tag <> "") by discriminate.
  split; [exact Hne|].
  destruct (cmd_start_decision Sample.clock 1 None Sample.tag (Some Sample.link)
              Sample.w0 Hne) as (n & w' & Hn & Hk & Hr).
  exists n, w'. split; [exact Hn|]. split.
  - rewrite Hk. vm_compute. reflexivity.
  - destruct Hr as (p & Hr). rewrite Hr. vm_compute in Hr. congruence.
Defined.

Lemma cmd_start_audit_witness :
  Sample.tag <> "" /\
  exists w',
    world_after (cmd_start Sample.clock 2 None Sample.tag (Some Sample.link) Sample.w1)
      = Some w' /\
    map log_event (logs_of w') =
      [(Some 2, Some Sample.tag, "attempt", "start_param");
       (Some 2, Some Sample.tag, "rejected", "owned_by_another")].
Proof.
  assert (Hne : Sample.tag <> "") by discriminate.
  split; [exact Hne|].
  destruct (cmd_start_audit Sample.clock 2 None Sample.tag (Some Sample.link)
              Sample.w1 Hne) as (w' & new & Hw & Hl & Hm).
  exists w'. split; [exact Hw|]. rewrite Hl. simpl. rewrite Hm.
  vm_compute. reflexivity.
Defined.

Lemma generated_code_shape_witness :
  exists w',
    create_keys_batch Sample.clock Sample.entropy 3 2 None Sample.w_taken =
      Ok ["MNOPQRSTUVWX"; "YZ0123456789"] w' /\
    "YZ0123456789" ∈ ["MNOPQRSTUVWX"; "YZ0123456789"] /\
    String.length "YZ0123456789" = 12%nat /\
    forall ch, ch ∈ list_ascii_of_string "YZ0123456789" -> ch ∈ alphabet.
Proof.
  eexists. split; [vm_compute; reflexivity|].
  assert (Hin : "YZ0123456789" ∈ ["MNOPQRSTUVWX"; "YZ0123456789"])
    by (apply elem_of_cons; right; apply elem_of_cons; left; reflexivity).
  split; [exact Hin|].
  eapply (generated_code_shape Sample.clock Sample.entropy 3 2 None Sample.w_taken);
    [vm_compute; reflexivity|exact Hin].
Defined.

Lemma create_keys_batch_fresh_witness :
  (Z.to_nat 2 <= size (fresh_candidates Sample.entropy 3 Sample.w_taken))%nat /\
  exists codes w',
    create_keys_batch Sample.clock Sample.entropy 3 2 None Sample.w_taken = Ok codes w'.
Proof.
  assert (H : (Z.to_nat 2 <= size (fresh_candidates Sample.entropy 3 Sample.w_taken))%nat)
    by (vm_compute; lia).
  split; [exact H|].
  exact (proj1 (proj2 (create_keys_batch_fresh Sample.clock Sample.entropy 3 2 None
                         Sample.w_taken)) H).
Defined.

Lemma owner_set_once_witness :
  exists w',
    exec_ops Sample.clock Sample.entropy Sample.later_ops Sample.w1 = Some w' /\
    keys_of Sample.w1 !! Sample.tag = Some (claim_row 1 (Sample.clock 0) Sample.fresh_row) /\
    exists r',
      keys_of w' !! Sample.tag = Some r' /\
      assigned_user_id r' = Some 1 /\
      exists b, claim_key_for_user Sample.clock Sample.tag 2 w' = Ok b w' /\
                (b = true <-> status r' <> "revoked" /\ 1 = 2).
Proof.
  eexists. split; [vm_compute; reflexivity|].
  assert (Hc : keys_of Sample.w1 !! Sample.tag =
               Some (claim_row 1 (Sample.clock 0) Sample.fresh_row))
    by (vm_compute; reflexivity).
  split; [exact Hc|].
  eapply (owner_set_once Sample.clock Sample.entropy Sample.later_ops Sample.w1);
    [vm_compute; reflexivity|exact Hc|reflexivity].
Defined.

Lemma revocation_terminal_witness :
  revoke_key Sample.tag Sample.w1 = Ok true Sample.w2 /\
  exists w3,
    exec_ops Sample.clock Sample.entropy Sample.later_ops Sample.w2 = Some w3 /\
    (exists r, keys_of w3 !! Sample.tag = Some r /\ status r = "revoked") /\
    claim_key_for_user Sample.clock Sample.tag 1 w3 = Ok false w3.
Proof.
  assert (Hr : revoke_key Sample.tag Sample.w1 = Ok true Sample.w2)
    by (vm_compute; reflexivity).
  split; [exact Hr|].
  assert (Hx : exists w3,
             exec_ops Sample.clock Sample.entropy Sample.later_ops Sample.w2 = Some w3)
    by (eexists; vm_compute; reflexivity).
  destruct Hx as (w3 & Hx). exists w3. split; [exact Hx|].
  destruct (revocation_terminal Sample.clock Sample.entropy Sample.tag Sample.w1 Sample.w2
              w3 Sample.later_ops 1 None None Hr Hx) as (Hrow & Hclaim & _).
  split; [exact Hrow|exact Hclaim].
Defined.

(** *** The further properties on the sample data *)

Lemma audit_log_append_only_witness :
  exists w',
    exec_ops Sample.clock Sample.entropy Sample.logged_ops Sample.w_seen = Some w' /\
    exists new, logs_of w' = logs_of Sample.w_seen ++ new.
Proof.
  assert (Hx : exists w',
             exec_ops Sample.clock Sample.entropy Sample.logged_ops Sample.w_seen = Some w')
    by (eexists; vm_compute; reflexivity).
  destruct Hx as (w' & Hx). exists w'. split; [exact Hx|].
  exact (audit_log_append_only Sample.clock Sample.entropy _ _ _ Hx).
Defined.

Lemma first_seen_kept_witness :
  exists w',
    exec_ops Sample.clock Sample.entropy Sample.logged_ops Sample.w_seen = Some w' /\
    users (db Sample.w_seen) !! 2 = Some Sample.bob /\
    exists u', users (db w') !! 2 = Some u' /\ first_seen u' = first_seen Sample.bob.
Proof.
  assert (Hx : exists w',
             exec_ops Sample.clock Sample.entropy Sample.logged_ops Sample.w_seen = Some w')
    by (eexists; vm_compute; reflexivity).
  destruct Hx as (w' & Hx). exists w'. split; [exact Hx|].
  assert (Hu : users (db Sample.w_seen) !! 2 = Some Sample.bob) by (vm_compute; reflexivity).
  split; [exact Hu|].
  exact (first_seen_kept Sample.clock Sample.entropy _ _ _ 2 Sample.bob Hx Hu).
Defined.

Lemma sample_keys_ok : keys_ok (keys_of Sample.w0).
Proof.
  intros c r H. unfold Sample.w0, keys_of in H. simpl in H.
  apply lookup_singleton_Some in H as [_ <-]. left. done.
Defined.

Lemma keys_stay_well_formed_witness :
  keys_ok (keys_of Sample.w0) /\
  exists w',
    exec_ops Sample.clock Sample.entropy Sample.later_ops Sample.w0 = Some w' /\
    keys_ok (keys_of w').
Proof.
  split; [exact sample_keys_ok|].
  assert (Hx : exists w',
             exec_ops Sample.clock Sample.entropy Sample.later_ops Sample.w0 = Some w')
    by (eexists; vm_compute; reflexivity).
  destruct Hx as (w' & Hx). exists w'. split; [exact Hx|].
  exact (keys_stay_well_formed Sample.clock Sample.entropy _ _ _ sample_keys_ok Hx).
Defined.

Lemma key_row_kept_witness :
  exists w',
    exec_events Sample.clock Sample.entropy Sample.mixed_events Sample.w1 = Some w' /\
    exists r',
      keys_of w' !! Sample.tag = Some r' /\
      product_id r' = None /\
      created_at r' = created_at Sample.fresh_row.
Proof.
  assert (Hx : exists w',
             exec_events Sample.clock Sample.entropy Sample.mixed_events Sample.w1 = Some w')
    by (eexists; vm_compute; reflexivity).
  destruct Hx as (w' & Hx). exists w'. split; [exact Hx|].
  assert (Hc : keys_of Sample.w1 !! Sample.tag =
               Some (claim_row 1 (Sample.clock 0) Sample.fresh_row))
    by (vm_compute; reflexivity).
  exact (key_row_kept Sample.clock Sample.entropy _ _ _ _ _ Hx Hc).
Defined.

Lemma claim_survives_issuer_failure_witness :
  exists w',
    cmd_start Sample.clock 1 None Sample.tag None Sample.w0 = Raise TelegramAPIError w' /\
    (exists r', keys_of w' !! Sample.tag = Some r' /\
                assigned_user_id r' = Some 1 /\ status r' = "claimed") /\
    exists w'',
      cmd_access Sample.clock 1 None (Some Sample.link) w' =
        Ok (ReplyAccessLink Sample.link) w''.
Proof.
  apply (claim_survives_issuer_failure Sample.clock 1 None None Sample.tag Sample.link
           Sample.w0 Sample.fresh_row).
  - discriminate.
  - vm_compute. reflexivity.
  - discriminate.
  - reflexivity.
Defined.

Lemma interleaved_claims_both_granted_witness :
  exists w',
    run_schedule Sample.clock [0; 1; 0; 1]%nat
      [BeforeSelect Sample.tag 7; BeforeSelect Sample.tag 8] Sample.w0 =
      Ok [Returned true; Returned true] w' /\
    assigned_user_id <$> keys_of w' !! Sample.tag = Some (Some 8) /\
    status <$> keys_of w' !! Sample.tag = Some "claimed".
Proof.
  apply (interleaved_claims_both_granted Sample.clock Sample.tag 7 8 Sample.w0
           Sample.fresh_row).
  - vm_compute. reflexivity.
  - discriminate.
  - reflexivity.
Defined.

Lemma admin_commands_gated_witness :
  (7 ∉ Sample.ADMINS) /\
  cmd_gen Sample.clock Sample.entropy Sample.ADMINS Sample.int 3 7 ["2"] (Some "bot")
    Sample.w0 = Ok AdminOnly Sample.w0 /\
  cmd_revoke Sample.ADMINS 7 Sample.tag Sample.w0 = Ok AdminOnly Sample.w0.
Proof.
  assert (Hna : 7 ∉ Sample.ADMINS).
  { intros H. apply elem_of_singleton in H. discriminate H. }
  split; [exact Hna|].
  destruct (admin_commands_gated Sample.clock Sample.entropy Sample.ADMINS Sample.int
              7 3 ["2"] (Some "bot") Sample.tag "" Sample.w0 Hna) as (Hg & Hr & _).
  split; [exact Hg|exact Hr].
Defined.

Lemma cmd_revoke_then_start_witness :
  100 ∈ Sample.ADMINS /\ Sample.tag <> "" /\
  existsb (pending_update_on Sample.tag) Sample.events_after_revoke = false /\
  exists w1 w2 w3,
    cmd_revoke Sample.ADMINS 100 Sample.tag Sample.w1 = Ok RevokeOk w1 /\
    exec_events Sample.clock Sample.entropy Sample.events_after_revoke w1 = Some w2 /\
    cmd_start Sample.clock 1 None Sample.tag (Some Sample.link) w2 =
      Ok ReplyKeyRevoked w3.
Proof.
  assert (Ha : 100 ∈ Sample.ADMINS) by (apply elem_of_singleton; reflexivity).
  assert (Hne : Sample.tag <> "") by discriminate.
  assert (Hno : existsb (pending_update_on Sample.tag) Sample.events_after_revoke = false)
    by reflexivity.
  split; [exact Ha|]. split; [exact Hne|]. split; [exact Hno|].
  pose proof (cmd_revoke_then_start Sample.clock Sample.entropy Sample.ADMINS 100 1 None
                (Some Sample.link) Sample.tag Sample.w1 Ha Hne) as Hm.
  assert (Hc : keys_of Sample.w1 !! Sample.tag =
               Some (claim_row 1 (Sample.clock 0) Sample.fresh_row))
    by (vm_compute; reflexivity).
  rewrite Hc in Hm. destruct Hm as (w1 & Hrev & _ & Hlater).
  assert (Hx : exists w2,
             exec_events Sample.clock Sample.entropy Sample.events_after_revoke w1 = Some w2).
  { assert (Hw1 : Ok RevokeOk w1 = Ok RevokeOk Sample.w2 :> Res AdminReply).
    { rewrite <- Hrev. vm_compute. reflexivity. }
    injection Hw1 as ->. eexists. vm_compute. reflexivity. }
  destruct Hx as (w2 & Hx).
  destruct (Hlater _ _ Hno Hx) as (w3 & Hs & _).
  exists w1, w2, w3. split; [exact Hrev|]. split; [exact Hx|exact Hs].
Defined.


Lemma cmd_gen_edge_cases_witness :
  100 ∈ Sample.ADMINS /\
  cmd_gen Sample.clock Sample.entropy Sample.ADMINS Sample.int 0 100 ["-5"] (Some "bot")
    Sample.w0 = Ok (GenCreated []) Sample.w0 /\
  cmd_gen Sample.clock Sample.entropy Sample.ADMINS Sample.int 3 100 ["many"] None
    Sample.w0 = Ok GenFormat Sample.w0.
Proof.
  assert (Ha : 100 ∈ Sample.ADMINS) by (apply elem_of_singleton; reflexivity).
  split; [exact Ha|]. split.
  - apply (cmd_gen_edge_cases Sample.clock Sample.entropy Sample.ADMINS Sample.int
             0 100 ["-5"] "bot" Sample.w0 Ha). vm_compute. congruence.
  - apply (cmd_gen_edge_cases Sample.clock Sample.entropy Sample.ADMINS Sample.int
             3 100 ["many"] "bot" Sample.w0 Ha).
Defined.

